(** * transaction-consumer: a shallow embedding of the ingestion pipeline

    Modules embedded (Go sources):
    - internal/domain/entities/transaction.go : [Transaction], [IsValid]
    - internal/usecases/transaction_usecase.go : [ProcessTransaction]
    - internal/deliveries (handler)            : [parseTimestamp], [kafkaMessageToEntity]
    - internal/infrastructures/database/postgres (repository) : [postgres.Create], [postgres.Exists]
    - internal/infrastructures/kafka/consumer/consumer.go : [Consume]

    Go's float64 is modelled by the IEEE-754 binary64 specification of the
    Standard Library ([spec_float] with precision 53 and maximal exponent
    1024); [time.Time] in UTC by its Unix instant in nanoseconds. *)

From Stdlib Require Import String List ZArith Bool Lia.
From Stdlib Require Import SpecFloat DecimalString Ascii.
Import ListNotations.

Open Scope Z_scope.

(** ** Go's float64 *)

Definition float64 := spec_float.
Definition f64_prec : Z := 53.
Definition f64_emax : Z := 1024.

(** A Go untyped integer constant converted to float64 (e.g. [100.0]). *)
Definition f64_of_Z (z : Z) : float64 := binary_normalize f64_prec f64_emax z 0 false.
Definition f64_zero : float64 := S754_zero false.

(** [a / b] on float64: IEEE division, rounding to nearest even. *)
Definition f64_div (a b : float64) : float64 := SFdiv f64_prec f64_emax a b.
(** [a > b] and [a != b] on float64 (NaN compares unequal to everything). *)
Definition f64_gt (a b : float64) : bool := SFltb b a.
Definition f64_neq (a b : float64) : bool := negb (SFeqb a b).

(** [int(f)] for a float64 [f]: the fraction is discarded (truncation
    towards zero). *)
Definition f64_trunc (f : float64) : Z :=
  match f with
  | S754_finite s m e =>
      let v := if 0 <=? e then Zpos m * 2 ^ e else Zpos m / 2 ^ (- e) in
      if s then - v else v
  | _ => 0
  end.

(** The exact rational value [m * 2^e] of a finite float, as a numerator
    and the exponent of two of its denominator. *)
Definition f64_value (f : float64) : option (Z * Z) :=
  match f with
  | S754_zero _ => Some (0, 0)
  | S754_finite s m e => Some (if s then Zneg m else Zpos m, e)
  | _ => None
  end.

(** ** time.Time (UTC), as nanoseconds since the Unix epoch *)

Definition Time := Z.

(** Days from 1970-01-01 to the first day of month [m] (1..12) of year [y]
    in the proleptic Gregorian calendar. *)
Definition days_from_civil (y m : Z) : Z :=
  let y' := if m <=? 2 then y - 1 else y in
  let era := y' / 400 in
  let yoe := y' - era * 400 in
  let mp := (m + 9) mod 12 in
  let doy := (153 * mp + 2) / 5 in
  let doe := yoe * 365 + yoe / 4 - yoe / 100 + doy in
  era * 146097 + doe - 719468.

(** [time.Date(year, month, day, hour, min, sec, nsec, time.UTC)].  Go
    normalises out-of-range components: the month into the year, and the
    rest linearly, which the flat sum below does. *)
Definition time_Date (year month day hour min sec nsec : Z) : Time :=
  let m := month - 1 in
  let year' := year + m / 12 in
  let month' := m mod 12 + 1 in
  ((days_from_civil year' month' + (day - 1)) * 86400
     + hour * 3600 + min * 60 + sec) * 1000000000 + nsec.

(** ** entities.Transaction *)

Module entities.

Definition TransactionStatusFailed : string := "FAILED".

Record Transaction := mkTransaction {
  ID : string;
  UserID : Z;
  AccountID : string;
  TransactionID : string;
  TransactionType : string;
  TransactionStatus : string;
  Amount : float64;
  BalanceBefore : float64;
  BalanceAfter : float64;
  Currency : string;
  Description : option string;
  ExternalReference : option string;
  PaymentMethod : option string;
  Metadata : option string;
  IsAccessibleFromExternal : bool;
  CreatedAt : Time;
  UpdatedAt : Time
}.

(** [transaction.ID = id] *)
Definition set_ID (id : string) (t : Transaction) : Transaction :=
  {| ID := id; UserID := UserID t; AccountID := AccountID t;
     TransactionID := TransactionID t; TransactionType := TransactionType t;
     TransactionStatus := TransactionStatus t; Amount := Amount t;
     BalanceBefore := BalanceBefore t; BalanceAfter := BalanceAfter t;
     Currency := Currency t; Description := Description t;
     ExternalReference := ExternalReference t; PaymentMethod := PaymentMethod t;
     Metadata := Metadata t; IsAccessibleFromExternal := IsAccessibleFromExternal t;
     CreatedAt := CreatedAt t; UpdatedAt := UpdatedAt t |}.

(** [func (t *Transaction) IsValid() bool] *)
Definition IsValid (t : Transaction) : bool :=
  (0 <? UserID t)
  && negb (String.eqb (AccountID t) "")
  && negb (String.eqb (TransactionID t) "")
  && negb (String.eqb (TransactionType t) "")
  && f64_gt (Amount t) f64_zero.

End entities.
Import entities.

(** ** Errors and diagnostics *)

Inductive db_error :=
| DbUnavailable                       (* connection refused, timeout, ... *)
| DbUniqueViolation (index : string)  (* SQLSTATE 23505 on a unique index *)
| DbPrimaryKeyViolation
| DbInvalidValue.                     (* a value its column type rejects *)

Inductive error :=
| ErrDb (e : db_error)
| ErrInvalidTransactionData             (* "invalid transaction data" *)
| ErrCheckExistence (e : error)         (* "failed to check transaction existence: %w" *)
| ErrCreateTransaction (e : error)      (* "failed to create transaction: %w" *)
| ErrTimestampLength (n : nat)          (* "invalid timestamp array length: %d" *)
| ErrUnmarshal                          (* "failed to unmarshal message: %w" *)
| ErrProcess (e : error)                (* "failed to process transaction: %w" *)
| ErrContextCanceled                    (* context.Canceled *)
| ErrDeadlineExceeded                   (* context.DeadlineExceeded *)
| ErrFetch (reason : string)            (* any other FetchMessage error *)
| ErrConvert (e : error)                (* "failed to convert message to entities: %w" *)
| ErrGetTransaction (e : error).        (* "failed to get transaction: %w" *)

Inductive level := LDebug | LInfo | LWarn | LError.

(** Observable effects of the use case: diagnostics and repository calls. *)
Inductive event :=
| EvLog (l : level) (msg : string)
| EvExists (transactionID : string)
| EvCreate (transactionID : string).

(** ** A state-and-trace monad for code that threads a repository *)

Definition M (St A : Type) : Type := St -> St * list event * A.

Definition ret {St A} (a : A) : M St A := fun s => (s, [], a).
Definition bind {St A B} (m : M St A) (k : A -> M St B) : M St B :=
  fun s => let '(s1, tr1, a) := m s in
           let '(s2, tr2, b) := k a s1 in
           (s2, tr1 ++ tr2, b).
Definition emit {St} (e : event) : M St unit := fun s => (s, [e], tt).
Definition logm {St} (l : level) (msg : string) : M St unit := emit (EvLog l msg).

Notation "x <- m ;; k" := (bind m (fun x => k)) (at level 61, m at next level, right associativity).
Notation "m ;;; k" := (bind m (fun _ => k)) (at level 61, right associativity).

(** ** repositories.TransactionRepository *)

(** The interface.  [Create] takes the record by pointer: it returns the
    record as the caller sees it afterwards. *)
Class TransactionRepository (St : Type) := {
  Create : Transaction -> St -> St * (Transaction * option error);
  Exists : string -> St -> St * (bool * option error)
}.

Section UseCase.
Context {St : Type} `{TransactionRepository St}.

Definition callExists (id : string) : M St (bool * option error) :=
  emit (EvExists id) ;;; (fun s => let '(s', r) := Exists id s in (s', [], r)).

Definition callCreate (t : Transaction) : M St (Transaction * option error) :=
  emit (EvCreate (TransactionID t)) ;;; (fun s => let '(s', r) := Create t s in (s', [], r)).

(** [func (uc *transactionUseCase) ProcessTransaction(ctx, transaction) error];
    returns the record as mutated through the pointer, and the error. *)
Definition ProcessTransaction (t : Transaction) : M St (Transaction * option error) :=
  if negb (IsValid t) then ret (t, Some ErrInvalidTransactionData) else
  r <- callExists (TransactionID t) ;;
  let '(exists_, err) := r in
  match err with
  | Some e =>
      logm LError "Failed to check transaction existence" ;;;
      ret (t, Some (ErrCheckExistence e))
  | None =>
      if exists_ then
        logm LInfo "Transaction already exists, skipping" ;;; ret (t, None)
      else
        (if String.eqb (TransactionStatus t) TransactionStatusFailed then
           if f64_neq (BalanceBefore t) (BalanceAfter t) then
             logm LWarn "Failed transaction has balance change"
           else ret tt
         else ret tt) ;;;
        c <- callCreate t ;;
        let '(t', cerr) := c in
        match cerr with
        | Some e =>
            logm LError "Failed to create transaction" ;;;
            ret (t', Some (ErrCreateTransaction e))
        | None =>
            logm LInfo "Transaction processed successfully" ;;; ret (t', None)
        end
  end.

End UseCase.

(** ** The PostgreSQL repository (gorm) *)

Module postgres.

(** [TransactionModel], the row of table [historical_transactions]. *)
Record TransactionModel := mkTransactionModel {
  ID : string;
  UserID : Z;
  AccountID : string;
  TransactionID : string;
  TransactionType : string;
  TransactionStatus : string;
  Amount : float64;
  BalanceBefore : float64;
  BalanceAfter : float64;
  Currency : string;
  Description : option string;
  ExternalReference : option string;
  PaymentMethod : option string;
  Metadata : option string;
  IsAccessibleFromExternal : bool;
  CreatedAt : Time;
  UpdatedAt : Time
}.

(** How the server converts a value to the type of its column: the stored
    value, or [None] when the type rejects it.  [varchar n] is
    [character varying(n)]; [enum_label] is given the name of an enum type
    ([transaction_type_enum], [transaction_status_enum],
    [payment_method_enum], whose labels the database schema defines, not
    this repository); [text], [decimal_15_2] and [timestamptz] are the
    other column types of the model ([timestamptz] keeps microseconds). *)
Record Columns := mkColumns {
  varchar : nat -> string -> option string;
  enum_label : string -> string -> option string;
  text : string -> option string;
  decimal_15_2 : float64 -> option float64;
  timestamptz : Time -> option Time
}.

(** The database: the rows of the table, whether the server answers, the
    state of [gen_random_uuid()], the clock reading of the next insert and
    the conversions of the column types. *)
Record DB := mkDB {
  rows : list TransactionModel;
  available : bool;
  uuid_seq : nat;
  clock : Time;
  columns : Columns
}.

Definition gen_random_uuid (n : nat) : string :=
  "uuid-" ++ NilZero.string_of_uint (Nat.to_uint n).

(** Name gorm gives the [uniqueIndex] on [transaction_id]. *)
Definition transaction_id_index : string := "idx_historical_transactions_transaction_id".

Definition with_ID (id : string) (m : TransactionModel) : TransactionModel :=
  {| ID := id; UserID := UserID m; AccountID := AccountID m;
     TransactionID := TransactionID m; TransactionType := TransactionType m;
     TransactionStatus := TransactionStatus m; Amount := Amount m;
     BalanceBefore := BalanceBefore m; BalanceAfter := BalanceAfter m;
     Currency := Currency m; Description := Description m;
     ExternalReference := ExternalReference m; PaymentMethod := PaymentMethod m;
     Metadata := Metadata m; IsAccessibleFromExternal := IsAccessibleFromExternal m;
     CreatedAt := CreatedAt m; UpdatedAt := UpdatedAt m |}.

(** [func (r *transactionRepository) entityToModel(transaction) *TransactionModel] *)
Definition entityToModel (t : Transaction) : TransactionModel :=
  {| ID := entities.ID t; UserID := entities.UserID t; AccountID := entities.AccountID t;
     TransactionID := entities.TransactionID t;
     TransactionType := entities.TransactionType t;
     TransactionStatus := entities.TransactionStatus t;
     Amount := entities.Amount t; BalanceBefore := entities.BalanceBefore t;
     BalanceAfter := entities.BalanceAfter t; Currency := entities.Currency t;
     Description := entities.Description t;
     ExternalReference := entities.ExternalReference t;
     PaymentMethod := match entities.PaymentMethod t with
                      | Some pm => Some pm
                      | None => None
                      end;
     Metadata := entities.Metadata t;
     IsAccessibleFromExternal := entities.IsAccessibleFromExternal t;
     CreatedAt := entities.CreatedAt t; UpdatedAt := entities.UpdatedAt t |}.

Definition count_transaction_id (id : string) (rs : list TransactionModel) : nat :=
  List.length (List.filter (fun m => String.eqb (TransactionID m) id) rs).

(** The primary key of the row: the zero value is left to the column
    default [gen_random_uuid()]. *)
Definition assigned_id (m : TransactionModel) (db : DB) : string * nat :=
  if String.eqb (ID m) "" then (gen_random_uuid (uuid_seq db), S (uuid_seq db))
  else (ID m, uuid_seq db).

(** [time.Time{}], the zero value of [CreatedAt] and [UpdatedAt]. *)
Definition time_IsZero (ts : Time) : bool := Z.eqb ts (time_Date 1 1 1 0 0 0 0).

(** What gorm's [Create] does with the zero values of the fields that have
    a default: [default:IDR] and [default:true] replace an empty currency
    and a false flag; [CreatedAt] and [UpdatedAt] (auto-create and
    auto-update times) get the current time when zero. *)
Definition gorm_defaults (now : Time) (m : TransactionModel) : TransactionModel :=
  {| ID := ID m; UserID := UserID m; AccountID := AccountID m;
     TransactionID := TransactionID m; TransactionType := TransactionType m;
     TransactionStatus := TransactionStatus m; Amount := Amount m;
     BalanceBefore := BalanceBefore m; BalanceAfter := BalanceAfter m;
     Currency := if String.eqb (Currency m) "" then "IDR" else Currency m;
     Description := Description m;
     ExternalReference := ExternalReference m; PaymentMethod := PaymentMethod m;
     Metadata := Metadata m;
     IsAccessibleFromExternal := if IsAccessibleFromExternal m then true else true;
     CreatedAt := if time_IsZero (CreatedAt m) then now else CreatedAt m;
     UpdatedAt := if time_IsZero (UpdatedAt m) then now else UpdatedAt m |}.

Definition option_bind {A B} (o : option A) (k : A -> option B) : option B :=
  match o with Some a => k a | None => None end.
Local Notation "'let?' x := o 'in' k" := (option_bind o (fun x => k))
  (at level 200, x name, o at level 100, k at level 200).

(** A nullable column: NULL is stored as NULL. *)
Definition nullable (conv : string -> option string) (v : option string) : option (option string) :=
  match v with
  | None => Some None
  | Some s => let? x := conv s in Some (Some x)
  end.

(** The row the server builds from the inserted values, column by column as
    the tags of [TransactionModel] declare them ([user_id] is a bigint and
    [is_accessible_external] a boolean, stored as given). *)
Definition store_row (c : Columns) (m : TransactionModel) : option TransactionModel :=
  let? id := varchar c 36 (ID m) in
  let? account := varchar c 36 (AccountID m) in
  let? txid := varchar c 50 (TransactionID m) in
  let? ty := enum_label c "transaction_type_enum" (TransactionType m) in
  let? st := enum_label c "transaction_status_enum" (TransactionStatus m) in
  let? amount := decimal_15_2 c (Amount m) in
  let? before := decimal_15_2 c (BalanceBefore m) in
  let? after := decimal_15_2 c (BalanceAfter m) in
  let? currency := varchar c 3 (Currency m) in
  let? descr := nullable (text c) (Description m) in
  let? extref := nullable (varchar c 255) (ExternalReference m) in
  let? pm := nullable (enum_label c "payment_method_enum") (PaymentMethod m) in
  let? meta := nullable (text c) (Metadata m) in
  let? created := timestamptz c (CreatedAt m) in
  let? updated := timestamptz c (UpdatedAt m) in
  Some {| ID := id; UserID := UserID m; AccountID := account; TransactionID := txid;
          TransactionType := ty; TransactionStatus := st; Amount := amount;
          BalanceBefore := before; BalanceAfter := after; Currency := currency;
          Description := descr; ExternalReference := extref; PaymentMethod := pm;
          Metadata := meta; IsAccessibleFromExternal := IsAccessibleFromExternal m;
          CreatedAt := created; UpdatedAt := updated |}.

(** The row an insert of [m] would store in [db]. *)
Definition stored_model (m : TransactionModel) (db : DB) : option TransactionModel :=
  store_row (columns db) (gorm_defaults (clock db) (with_ID (fst (assigned_id m db)) m)).

(** [INSERT ... RETURNING id]: the server builds the row (gorm's defaults,
    then the column types), then enforces the primary key and the unique
    index on [transaction_id].  On success the model carries the stored
    id. *)
Definition insert (m : TransactionModel) (db : DB)
  : DB * (TransactionModel + db_error) :=
  if negb (available db) then (db, inr DbUnavailable) else
  match stored_model m db with
  | None => (db, inr DbInvalidValue)
  | Some row =>
      if List.existsb (fun r => String.eqb (ID r) (ID row)) (rows db) then
        (db, inr DbPrimaryKeyViolation)
      else if (0 <? count_transaction_id (TransactionID row) (rows db))%nat then
        (db, inr (DbUniqueViolation transaction_id_index))
      else
        ({| rows := rows db ++ [row]; available := true;
            uuid_seq := snd (assigned_id m db); clock := clock db; columns := columns db |},
         inl row)
  end.

(** [func (r *transactionRepository) Create(ctx, transaction) error] *)
Definition Create (t : Transaction) (db : DB) : DB * (Transaction * option error) :=
  let model := entityToModel t in
  match insert model db with
  | (db', inr e) => (db', (t, Some (ErrCreateTransaction (ErrDb e))))
  | (db', inl model') => (db', (set_ID (ID model') t, None))
  end.

(** [func (r *transactionRepository) Exists(ctx, transactionID) (bool, error)]:
    a row count WHERE transaction_id = ?. *)
Definition Exists (id : string) (db : DB) : DB * (bool * option error) :=
  if negb (available db) then
    (db, (false, Some (ErrCheckExistence (ErrDb DbUnavailable))))
  else (db, ((0 <? count_transaction_id id (rows db))%nat, None)).

#[global] Instance transactionRepository : TransactionRepository DB :=
  { Create := Create; Exists := Exists }.

(** [func (r *transactionRepository) modelToEntity(model) *entities.Transaction] *)
Definition modelToEntity (m : TransactionModel) : Transaction :=
  {| entities.ID := ID m; entities.UserID := UserID m; entities.AccountID := AccountID m;
     entities.TransactionID := TransactionID m;
     entities.TransactionType := TransactionType m;
     entities.TransactionStatus := TransactionStatus m;
     entities.Amount := Amount m; entities.BalanceBefore := BalanceBefore m;
     entities.BalanceAfter := BalanceAfter m; entities.Currency := Currency m;
     entities.Description := Description m;
     entities.ExternalReference := ExternalReference m;
     entities.Metadata := Metadata m;
     entities.IsAccessibleFromExternal := IsAccessibleFromExternal m;
     entities.CreatedAt := CreatedAt m; entities.UpdatedAt := UpdatedAt m;
     entities.PaymentMethod := match PaymentMethod m with
                               | Some pm => Some pm
                               | None => None
                               end |}.

(** gorm's [First]: the row with the least primary key (compared byte-wise)
    among the selected ones, if any. *)
Fixpoint first_by_primary_key (rs : list TransactionModel) : option TransactionModel :=
  match rs with
  | [] => None
  | r :: rs' =>
      match first_by_primary_key rs' with
      | Some r' => if String.leb (ID r) (ID r') then Some r else Some r'
      | None => Some r
      end
  end.

(** [func (r *transactionRepository) GetByTransactionID(ctx, transactionID)]:
    [gorm.ErrRecordNotFound] becomes a nil record with a nil error. *)
Definition GetByTransactionID (id : string) (db : DB)
  : DB * (option Transaction * option error) :=
  if negb (available db) then
    (db, (None, Some (ErrGetTransaction (ErrDb DbUnavailable))))
  else
    match first_by_primary_key
            (List.filter (fun m => String.eqb (TransactionID m) id) (rows db)) with
    | None => (db, (None, None))
    | Some m => (db, (Some (modelToEntity m), None))
    end.

End postgres.

(** ** The four outcomes of the spec, read off the Go code

    [ProcessTransaction] returns a Go [error]: [Rejected] is the
    "invalid transaction data" error, [Failed] any other error; a nil error
    is [Written] when the repository's [Create] was called and [Skipped]
    when it was not. *)
Inductive Outcome := Written | Skipped | Rejected | Failed.

Definition is_create (e : event) : bool :=
  match e with EvCreate _ => true | _ => false end.

Definition outcome_of (tr : list event) (err : option error) : Outcome :=
  match err with
  | Some ErrInvalidTransactionData => Rejected
  | Some _ => Failed
  | None => if List.existsb is_create tr then Written else Skipped
  end.

(** ** Two writers on one table

    The check-then-create race of the concurrency note: another writer's
    inserts (records of [pending]) commit between this writer's existence
    query and its insert. *)
Module concurrent.

Definition St := (postgres.DB * list Transaction)%type.

Definition flush (db : postgres.DB) (pending : list Transaction) : postgres.DB :=
  List.fold_left (fun db t => fst (postgres.Create t db)) pending db.

Definition Exists (id : string) (s : St) : St * (bool * option error) :=
  let '(db, pending) := s in
  let '(db', r) := postgres.Exists id db in ((flush db' pending, []), r).

Definition Create (t : Transaction) (s : St) : St * (Transaction * option error) :=
  let '(db, pending) := s in
  let '(db', r) := postgres.Create t (flush db pending) in ((db', []), r).

#[global] Instance racingRepository : TransactionRepository St :=
  { Create := Create; Exists := Exists }.

End concurrent.

(** ** The Kafka message handler (package deliveries) *)

Module deliveries.

Set Warnings "-register-all".

(** A value decoded by [encoding/json] into an [interface{}]: JSON numbers
    become float64. *)
Inductive json :=
| JNull
| JBool (b : bool)
| JNumber (f : float64)
| JString (s : string)
| JArray (l : list json)
| JObject (l : list (string * json)).

(** A Go computation that either completes or panics. *)
Inductive go (A : Type) := Normal (a : A) | Panic (reason : string).
Arguments Normal {A} a.
Arguments Panic {A} reason.

Definition gbind {A B} (m : go A) (k : A -> go B) : go B :=
  match m with Normal a => k a | Panic r => Panic r end.
Notation "x <~ m ;; k" := (gbind m (fun x => k)) (at level 61, m at next level, right associativity).

(** [KafkaTransactionMessage] after [json.Unmarshal]. *)
Record KafkaTransactionMessage := mkKafkaTransactionMessage {
  ID : string;
  UserID : Z;
  AccountID : string;
  TransactionID : string;
  TransactionType : string;
  TransactionStatus : string;
  Amount : float64;
  BalanceBefore : float64;
  BalanceAfter : float64;
  Currency : string;
  Description : string;
  ExternalReference : option string;
  PaymentMethod : string;
  Metadata : option string;
  IsAccessibleFromExternal : bool;
  CreatedAt : list json;
  UpdatedAt : list json
}.

(** The single-result type assertion [v.(float64)]: panics unless [v] holds
    a float64. *)
Definition assert_float64 (v : json) : go float64 :=
  match v with
  | JNumber f => Normal f
  | _ => Panic "interface conversion: interface {} is not float64"
  end.

(** [timestampArray[i]] for an index below the length. *)
Definition at_index (a : list json) (i : nat) : json := List.nth i a JNull.

(** [time.Time{}], the zero instant (January 1, year 1, UTC). *)
Definition time_zero : Time := time_Date 1 1 1 0 0 0 0.

(** [func (h *TransactionHandler) parseTimestamp(timestampArray) (time.Time, error)] *)
Definition parseTimestamp (a : list json) : go (Time * option error) :=
  if (List.length a <? 6)%nat then
    Normal (time_zero, Some (ErrTimestampLength (List.length a)))
  else
  year <~ assert_float64 (at_index a 0) ;;
  month <~ assert_float64 (at_index a 1) ;;
  day <~ assert_float64 (at_index a 2) ;;
  hour <~ assert_float64 (at_index a 3) ;;
  minute <~ assert_float64 (at_index a 4) ;;
  second <~ assert_float64 (at_index a 5) ;;
  nanosecond <~ (if (6 <? List.length a)%nat
                 then assert_float64 (at_index a 6) else Normal f64_zero) ;;
  Normal (time_Date (f64_trunc year) (f64_trunc month) (f64_trunc day)
            (f64_trunc hour) (f64_trunc minute) (f64_trunc second)
            (f64_trunc nanosecond), None).

(** [func (h *TransactionHandler) kafkaMessageToEntity(msg)], returning a pointer to an [entities.Transaction] and an error.
    [nowCreated] and [nowUpdated] are what [time.Now().UTC()] reads at the
    two fallbacks; the warnings are returned as diagnostics. *)
Definition kafkaMessageToEntity (nowCreated nowUpdated : Time)
    (msg : KafkaTransactionMessage) : go (list event * (Transaction * option error)) :=
  c <~ parseTimestamp (CreatedAt msg) ;;
  let '(createdAt, logs1) :=
    match c with
    | (_, Some _) => (nowCreated, [EvLog LWarn "Failed to parse createdAt, using current time"])
    | (ts, None) => (ts, [])
    end in
  u <~ parseTimestamp (UpdatedAt msg) ;;
  let '(updatedAt, logs2) :=
    match u with
    | (_, Some _) => (nowUpdated, [EvLog LWarn "Failed to parse updatedAt, using current time"])
    | (ts, None) => (ts, [])
    end in
  let amount := f64_div (Amount msg) (f64_of_Z 100) in
  let transaction :=
    {| entities.ID := ID msg;
       entities.UserID := UserID msg;
       entities.AccountID := AccountID msg;
       entities.TransactionID := TransactionID msg;
       entities.TransactionType := TransactionType msg;
       entities.TransactionStatus := TransactionStatus msg;
       entities.Amount := amount;
       entities.BalanceBefore := BalanceBefore msg;
       entities.BalanceAfter := BalanceAfter msg;
       entities.Currency := Currency msg;
       entities.Description :=
         if negb (String.eqb (Description msg) "") then Some (Description msg) else None;
       entities.ExternalReference := ExternalReference msg;
       entities.PaymentMethod :=
         if negb (String.eqb (PaymentMethod msg) "") then Some (PaymentMethod msg) else None;
       entities.Metadata := Metadata msg;
       entities.IsAccessibleFromExternal := IsAccessibleFromExternal msg;
       entities.CreatedAt := createdAt;
       entities.UpdatedAt := updatedAt |} in
  Normal (logs1 ++ logs2, (transaction, None)).

Section Handler.
Context {St : Type} `{TransactionRepository St}.

(** [json.Unmarshal] of a message value into a [KafkaTransactionMessage]
    (library code): [None] when the payload does not decode. *)
Context (unmarshal : string -> option KafkaTransactionMessage).

(** [func (h *TransactionHandler) HandleMessage(ctx, message []byte) error],
    with the clock readings of the translation; the repository state, the
    diagnostics and repository calls, and the returned error. *)
Definition HandleMessage (nowCreated nowUpdated : Time) (message : string) (s : St)
  : go (St * list event * option error) :=
  let received := EvLog LDebug "Received message" in
  match unmarshal message with
  | None => Normal (s, [received], Some ErrUnmarshal)
  | Some kafkaMsg =>
      let unmarshalled := EvLog LDebug "Unmarshalled message" in
      c <~ kafkaMessageToEntity nowCreated nowUpdated kafkaMsg ;;
      let '(logs, (transaction, cerr)) := c in
      match cerr with
      | Some e => Normal (s, [received; unmarshalled] ++ logs, Some (ErrConvert e))
      | None =>
          let '(s', tr, (_, perr)) := ProcessTransaction transaction s in
          Normal (s', [received; unmarshalled] ++ logs ++ tr,
                  match perr with Some e => Some (ErrProcess e) | None => None end)
      end
  end.

(** [kafkaHandler.HandleMessage] as the [MessageHandler] given to
    [Consume] (the diagnostics go to the logger). *)
Definition message_handler (nowCreated nowUpdated : Time) (message : string) (s : St)
  : go (St * option error) :=
  match HandleMessage nowCreated nowUpdated message s with
  | Normal (s', _, err) => Normal (s', err)
  | Panic why => Panic why
  end.

End Handler.

End deliveries.

(** ** The Kafka consumer loop (package consumer) *)

Module consumer.

(** The state of [ctx] as seen by [ctx.Done()] and [ctx.Err()]. *)
Inductive ctx_state := CtxActive | CtxCanceled | CtxDeadlineExceeded.

(** [ctx.Err()] *)
Definition ctx_Err (c : ctx_state) : option error :=
  match c with
  | CtxActive => None
  | CtxCanceled => Some ErrContextCanceled
  | CtxDeadlineExceeded => Some ErrDeadlineExceeded
  end.

(** [errors.Is(err, target)] for the sentinel errors of this model: follows
    the [%w] wrappers. *)
Fixpoint errors_Is (err target : error) : bool :=
  match err, target with
  | ErrContextCanceled, ErrContextCanceled => true
  | ErrDeadlineExceeded, ErrDeadlineExceeded => true
  | ErrCheckExistence e, _ | ErrCreateTransaction e, _ | ErrProcess e, _ =>
      errors_Is e target
  | _, _ => false
  end.

(** [kafka.Message]: its offset and its value. *)
Record Message := mkMessage { Offset : Z; Value : string }.

Definition Message_eqb (a b : Message) : bool :=
  Z.eqb (Offset a) (Offset b) && String.eqb (Value a) (Value b).

Inductive fetch_result := Fetched (m : Message) | FetchFailed (e : error).

(** What the environment does during one turn of the [for] loop: the state
    of [ctx] when the [select] runs, what [FetchMessage(ctx)] returns (a
    cancellation during the fetch makes it return [context.Canceled]), and
    what [CommitMessages] returns. *)
Record round := mkRound {
  ctx_at_select : ctx_state;
  fetch : fetch_result;
  commit_result : option error
}.

(** Effects of the loop, in order. [CHandled m r] records that the handler
    returned [r] on [m]. *)
Inductive cevent :=
| CLog (l : level) (msg : string)
| CFetch
| CHandled (m : Message) (r : option error)
| CCommit (m : Message)
| CSleep (seconds : Z).

(** How a run of the loop ends: it still runs when the environment's script
    is exhausted, it returned an error value, or a panic escaped. *)
Inductive loop_result := Running | Returned (e : option error) | Panicked (reason : string).

Section Loop.

(** [handler MessageHandler], stateful over [HS] (e.g. the database); it
    may panic. *)
Context {HS : Type} (handler : string -> HS -> deliveries.go (HS * option error)).

Fixpoint loop (rs : list round) (hs : HS) : HS * list cevent * loop_result :=
  match rs with
  | [] => (hs, [], Running)
  | r :: rs' =>
      match ctx_at_select r with
      | CtxCanceled | CtxDeadlineExceeded =>
          (hs, [CLog LInfo "Consumer context cancelled, stopping..."],
           Returned (ctx_Err (ctx_at_select r)))
      | CtxActive =>
          match fetch r with
          | FetchFailed e =>
              if errors_Is e ErrContextCanceled then (hs, [CFetch], Returned None)
              else
                let '(hs', tr, res) := loop rs' hs in
                (hs', CFetch :: CLog LError "Failed to fetch message" :: CSleep 1 :: tr, res)
          | Fetched m =>
              match handler (Value m) hs with
              | deliveries.Panic why => (hs, [CFetch], Panicked why)
              | deliveries.Normal (hs1, herr) =>
                  let tr0 :=
                    [CFetch; CHandled m herr]
                    ++ (match herr with
                        | Some _ => [CLog LError "Failed to process message"]
                        | None => []
                        end)
                    ++ [CCommit m]
                    ++ (match commit_result r with
                        | Some _ => [CLog LError "Failed to commit message"]
                        | None => []
                        end) in
                  let '(hs', tr, res) := loop rs' hs1 in
                  (hs', tr0 ++ tr, res)
              end
          end
      end
  end.

(** [func (c *Consumer) Consume(ctx, handler) error] *)
Definition Consume (rs : list round) (hs : HS) : HS * list cevent * loop_result :=
  let '(hs', tr, res) := loop rs hs in
  (hs', CLog LInfo "Starting Kafka consumer" :: tr, res).

End Loop.

(** The loop's trace without diagnostics. *)
Definition is_log (e : cevent) : bool := match e with CLog _ _ => true | _ => false end.
Definition actions (tr : list cevent) : list cevent := List.filter (fun e => negb (is_log e)) tr.

(** The shape of the non-diagnostic trace: each turn is a fetch followed
    either by a back-off, or by the handler's return on the fetched message
    and one commit of that same message; only the last turn may stop right
    after its fetch. *)
Fixpoint turns_ok (tr : list cevent) : bool :=
  match tr with
  | [] => true
  | [CFetch] => true
  | CFetch :: CSleep _ :: rest => turns_ok rest
  | CFetch :: CHandled m _ :: CCommit m' :: rest => Message_eqb m m' && turns_ok rest
  | _ => false
  end.

End consumer.

(** ** Configuration (package config) *)

Module config.

Local Open Scope string_scope.

(** [Config], with the fields that [Validate] reads or writes and the other
    string, integer and boolean settings; the durations and the pool sizes
    play no part here and are left out. *)
Record Config := mkConfig {
  Brokers : list string;
  Topic : string;
  GroupID : string;
  Host : string;
  Port : Z;
  User : string;
  Password : string;
  Name : string;
  SSLMode : string;
  LogLevel : string;
  Environment : string;
  AppPort : Z;
  Debug : bool
}.

Definition set_Brokers (bs : list string) (c : Config) : Config :=
  {| Brokers := bs; Topic := Topic c; GroupID := GroupID c; Host := Host c; Port := Port c;
     User := User c; Password := Password c; Name := Name c; SSLMode := SSLMode c;
     LogLevel := LogLevel c; Environment := Environment c; AppPort := AppPort c;
     Debug := Debug c |}.

(** The errors of [Load] and [Validate]. *)
Inductive config_error :=
| BrokersEmpty
| EmptyBroker (i : nat)
| PortOutOfRange (p : Z)
| InvalidSSLMode (m : string)
| InvalidLogLevel (l : string)
| ParseFailed
| ValidationFailed (e : config_error).

Definition validSSLModes : list string :=
  ["disable"; "allow"; "prefer"; "require"; "verify-ca"; "verify-full"].

Definition validLogLevels : list string := ["debug"; "info"; "warn"; "error"; "fatal"].

Section Validation.

(** [strings.TrimSpace], [strings.EqualFold] and [strings.ToLower]
    (library code). *)
Context (TrimSpace : string -> string) (EqualFold : string -> string -> bool)
        (ToLower : string -> string).

(** [func contains(slice []string, item string) bool] *)
Definition contains (slice : list string) (item : string) : bool :=
  List.existsb (fun s => EqualFold s item) slice.

(** The loop [for i, broker := range c.Kafka.Brokers]: each element is
    trimmed in place, and the loop returns at the first one that is empty
    after trimming, leaving the later ones untouched. *)
Fixpoint trim_brokers (i : nat) (bs : list string) : list string * option config_error :=
  match bs with
  | [] => ([], None)
  | b :: bs' =>
      let b' := TrimSpace b in
      if String.eqb b' "" then (b' :: bs', Some (EmptyBroker i))
      else let '(rest, e) := trim_brokers (S i) bs' in (b' :: rest, e)
  end.

(** [func (c *Config) Validate() error]: the configuration as modified
    through the pointer, and the error. *)
Definition Validate (c : Config) : Config * option config_error :=
  if Nat.eqb (List.length (Brokers c)) 0 then (c, Some BrokersEmpty) else
  let '(bs, e) := trim_brokers 0 (Brokers c) in
  let c1 := set_Brokers bs c in
  match e with
  | Some e => (c1, Some e)
  | None =>
      if Z.leb (Port c1) 0 || Z.ltb 65535 (Port c1) then (c1, Some (PortOutOfRange (Port c1)))
      else if negb (contains validSSLModes (SSLMode c1)) then
        (c1, Some (InvalidSSLMode (SSLMode c1)))
      else if negb (contains validLogLevels (ToLower (LogLevel c1))) then
        (c1, Some (InvalidLogLevel (LogLevel c1)))
      else (c1, None)
  end.

(** [func Load()], returning a pointer to a [Config] and an error, given what [env.Parse] makes of the
    environment ([None] when it fails); [LogConfig] only prints. *)
Definition Load (parsed : option Config) : Config + config_error :=
  match parsed with
  | None => inr ParseFailed
  | Some c =>
      match Validate c with
      | (_, Some e) => inr (ValidationFailed e)
      | (c', None) => inl c'
      end
  end.

End Validation.

End config.

(** ** Sample values *)

(** A record with the given transaction id, status, amount and balances. *)
Definition sample_transaction (txid status : string) (amount before after : float64) : Transaction :=
  {| ID := ""; UserID := 123; AccountID := "account-123"; TransactionID := txid;
     TransactionType := "PAYMENT"; TransactionStatus := status; Amount := amount;
     BalanceBefore := before; BalanceAfter := after; Currency := "IDR";
     Description := None; ExternalReference := None; PaymentMethod := None;
     Metadata := None; IsAccessibleFromExternal := true; CreatedAt := 0; UpdatedAt := 0 |}.

(** [100.50] *)
Definition f64_100_50 : float64 := binary_normalize f64_prec f64_emax 201 (-1) false.

(** Column conversions for the examples: a [varchar n] holds at most [n]
    characters (the examples are ASCII), the enum types have the labels of
    the entity constants (and, for payment methods, a few sample labels),
    and decimals and instants are stored as given (the examples have at
    most two decimals and whole microseconds). *)
Definition sample_columns : postgres.Columns :=
  {| postgres.varchar := fun n s => if Nat.leb (String.length s) n then Some s else None;
     postgres.enum_label := fun ty v =>
       let labels :=
         if String.eqb ty "transaction_type_enum" then ["TOPUP"; "PAYMENT"; "REFUND"; "TRANSFER"]
         else if String.eqb ty "transaction_status_enum"
         then ["PENDING"; "SUCCESS"; "FAILED"; "CANCELLED"]
         else ["BANK_TRANSFER"; "E_WALLET"; "CREDIT_CARD"] in
       if List.existsb (String.eqb v) labels then Some v else None;
     postgres.text := fun s => Some s;
     postgres.decimal_15_2 := fun f => Some f;
     postgres.timestamptz := fun ts => Some ts |}%string.

Definition empty_db : postgres.DB :=
  {| postgres.rows := []; postgres.available := true; postgres.uuid_seq := 0;
     postgres.clock := 1705314645000000000; postgres.columns := sample_columns |}.

Example parseTimestamp_with_nanoseconds :
  deliveries.parseTimestamp
    (List.map (fun z => deliveries.JNumber (f64_of_Z z)) [2024; 1; 15; 10; 30; 45; 500000000])
  = deliveries.Normal (1705314645500000000, None).
Proof. vm_compute. reflexivity. Qed.

Example time_zero_is_year_one : deliveries.time_zero = -62135596800000000000.
Proof. vm_compute. reflexivity. Qed.

Example amount_15025_is_150_25 :
  f64_div (f64_of_Z 15025) (f64_of_Z 100) = binary_normalize f64_prec f64_emax 601 (-2) false.
Proof. vm_compute. reflexivity. Qed.

Example IsValid_sample : IsValid (sample_transaction "trans-123" "SUCCESS" f64_100_50 f64_zero f64_zero) = true.
Proof. vm_compute. reflexivity. Qed.

Example IsValid_zero_amount : IsValid (sample_transaction "trans-123" "SUCCESS" f64_zero f64_zero f64_zero) = false.
Proof. vm_compute. reflexivity. Qed.

(** ** General lemmas *)

Lemma IsValid_false_iff (t : Transaction) :
  IsValid t = false <->
  (UserID t <= 0 \/ AccountID t = ""%string \/ TransactionID t = ""%string
   \/ TransactionType t = ""%string \/ f64_gt (Amount t) f64_zero = false).
Proof.
  unfold IsValid.
  destruct (0 <? UserID t) eqn:Hu;
  destruct (String.eqb (AccountID t) "") eqn:Ha;
  destruct (String.eqb (TransactionID t) "") eqn:Hi;
  destruct (String.eqb (TransactionType t) "") eqn:Hty;
  destruct (f64_gt (Amount t) f64_zero) eqn:Hm; simpl;
  rewrite ?Z.ltb_lt, ?Z.ltb_ge, ?String.eqb_eq, ?String.eqb_neq in *;
  intuition (try discriminate; try lia; try congruence).
Qed.

Section UseCaseLemmas.
Context {St : Type} `{TransactionRepository St}.

(** The diagnostics of the balance check (lines 44-48 of the use case). *)
Definition balance_warning (t : Transaction) : list event :=
  if String.eqb (TransactionStatus t) TransactionStatusFailed then
    if f64_neq (BalanceBefore t) (BalanceAfter t)
    then [EvLog LWarn "Failed transaction has balance change"] else []
  else [].

Lemma process_invalid (t : Transaction) (s : St) :
  IsValid t = false ->
  ProcessTransaction t s = (s, [], (t, Some ErrInvalidTransactionData)).
Proof. intro Hv. unfold ProcessTransaction. rewrite Hv. reflexivity. Qed.

Lemma process_exists_error (t : Transaction) (s s1 : St) (b : bool) (e : error) :
  IsValid t = true -> Exists (TransactionID t) s = (s1, (b, Some e)) ->
  ProcessTransaction t s =
    (s1, [EvExists (TransactionID t); EvLog LError "Failed to check transaction existence"],
     (t, Some (ErrCheckExistence e))).
Proof.
  intros Hv He. unfold ProcessTransaction. rewrite Hv. simpl.
  unfold callExists, logm; unfold bind, emit, ret. simpl. rewrite He. reflexivity.
Qed.

Lemma process_skip (t : Transaction) (s s1 : St) :
  IsValid t = true -> Exists (TransactionID t) s = (s1, (true, None)) ->
  ProcessTransaction t s =
    (s1, [EvExists (TransactionID t); EvLog LInfo "Transaction already exists, skipping"],
     (t, None)).
Proof.
  intros Hv He. unfold ProcessTransaction. rewrite Hv. simpl.
  unfold callExists, logm; unfold bind, emit, ret. simpl. rewrite He. reflexivity.
Qed.

Lemma process_create (t t' : Transaction) (s s1 s2 : St) (cerr : option error) :
  IsValid t = true -> Exists (TransactionID t) s = (s1, (false, None)) ->
  Create t s1 = (s2, (t', cerr)) ->
  ProcessTransaction t s =
    (s2, [EvExists (TransactionID t)] ++ balance_warning t ++ [EvCreate (TransactionID t)]
         ++ [match cerr with
             | Some _ => EvLog LError "Failed to create transaction"
             | None => EvLog LInfo "Transaction processed successfully"
             end],
     (t', match cerr with Some e => Some (ErrCreateTransaction e) | None => None end)).
Proof.
  intros Hv He Hc. unfold ProcessTransaction. rewrite Hv. simpl.
  unfold callExists, callCreate, logm, balance_warning; unfold bind, emit, ret. simpl.
  rewrite He. simpl.
  destruct (String.eqb (TransactionStatus t) TransactionStatusFailed);
  [destruct (f64_neq (BalanceBefore t) (BalanceAfter t))|]; simpl;
  rewrite Hc; destruct cerr; reflexivity.
Qed.

End UseCaseLemmas.

Lemma Message_eqb_refl (m : consumer.Message) : consumer.Message_eqb m m = true.
Proof. unfold consumer.Message_eqb. rewrite Z.eqb_refl, String.eqb_refl. reflexivity. Qed.

(** Case analysis on the two timestamp parses of [kafkaMessageToEntity]. *)
Ltac translate_cases :=
  unfold deliveries.kafkaMessageToEntity, deliveries.gbind;
  let c := fresh "c" in let ce := fresh "ce" in
  let u := fresh "u" in let ue := fresh "ue" in
  destruct (deliveries.parseTimestamp (deliveries.CreatedAt _)) as [[c ce]|];
  [destruct ce;
   (destruct (deliveries.parseTimestamp (deliveries.UpdatedAt _)) as [[u ue]|];
    [destruct ue| ]) | ];
  let H := fresh "Heq" in
  intro H; try discriminate H; injection H as <- <- <-; simpl.

(** ** Claims *)

(** C2: a record that fails at least one of the invariants (user id > 0,
    account id, transaction id and type non-empty, amount > 0) is rejected
    with the terminal "invalid transaction data" error before any
    repository call: the trace holds no existence check and no create, and
    the repository state is unchanged. *)
Theorem process_invalid_rejected {St : Type} `{TransactionRepository St}
    (t : Transaction) (s : St) :
  (UserID t <= 0 \/ AccountID t = ""%string \/ TransactionID t = ""%string
   \/ TransactionType t = ""%string \/ f64_gt (Amount t) f64_zero = false) ->
  let '(s', tr, (t', err)) := ProcessTransaction t s in
  s' = s /\ tr = [] /\ t' = t /\ err = Some ErrInvalidTransactionData
  /\ outcome_of tr err = Rejected.
Proof.
  intro Hinv. apply IsValid_false_iff in Hinv.
  rewrite (process_invalid t s Hinv). repeat split.
Qed.

Lemma process_invalid_rejected_witness :
  (UserID (sample_transaction "trans-123" "SUCCESS" f64_zero f64_zero f64_zero) <= 0
   \/ AccountID (sample_transaction "trans-123" "SUCCESS" f64_zero f64_zero f64_zero) = ""%string
   \/ TransactionID (sample_transaction "trans-123" "SUCCESS" f64_zero f64_zero f64_zero) = ""%string
   \/ TransactionType (sample_transaction "trans-123" "SUCCESS" f64_zero f64_zero f64_zero) = ""%string
   \/ f64_gt (Amount (sample_transaction "trans-123" "SUCCESS" f64_zero f64_zero f64_zero)) f64_zero = false)
  /\ (let '(s', tr, (t', err)) :=
        ProcessTransaction (sample_transaction "trans-123" "SUCCESS" f64_zero f64_zero f64_zero) empty_db in
      s' = empty_db /\ tr = [] /\ t' = sample_transaction "trans-123" "SUCCESS" f64_zero f64_zero f64_zero
      /\ err = Some ErrInvalidTransactionData /\ outcome_of tr err = Rejected).
Proof.
  assert (Hh : f64_gt (Amount (sample_transaction "trans-123" "SUCCESS" f64_zero f64_zero f64_zero))
                 f64_zero = false) by (vm_compute; reflexivity).
  split.
  - right; right; right; right. exact Hh.
  - apply (process_invalid_rejected (sample_transaction "trans-123" "SUCCESS" f64_zero f64_zero f64_zero)
             empty_db).
    right; right; right; right. exact Hh.
Defined.

(** C10: a successful [Create] writes back into the record it was given:
    the record's [ID] becomes the id of the row just stored (the row the
    server built from the record's values), and every other field keeps its
    value. *)
Theorem create_overwrites_only_ID (t t' : Transaction) (db db' : postgres.DB) :
  postgres.Create t db = (db', (t', None)) ->
  exists row,
    postgres.rows db' = postgres.rows db ++ [row]
    /\ postgres.stored_model (postgres.entityToModel t) db = Some row
    /\ t' = set_ID (postgres.ID row) t
    /\ ID t' = postgres.ID row.
Proof.
  unfold postgres.Create, postgres.insert.
  destruct (postgres.available db) eqn:Ha; simpl; [|intro Heq; discriminate Heq].
  destruct (postgres.stored_model (postgres.entityToModel t) db) as [row|] eqn:Hs;
    [|intro Heq; discriminate Heq].
  destruct (List.existsb _ _); simpl; [intro Heq; discriminate Heq|].
  destruct (0 <? _)%nat; simpl; [intro Heq; discriminate Heq|].
  intro Heq. injection Heq as <- <-.
  exists row. split; [reflexivity|]. split; [reflexivity|]. split; reflexivity.
Qed.

Lemma create_overwrites_only_ID_witness :
  exists row,
    postgres.rows (fst (postgres.Create (sample_transaction "trans-123" "SUCCESS" f64_100_50 f64_zero f64_zero) empty_db))
      = postgres.rows empty_db ++ [row]
    /\ postgres.stored_model
         (postgres.entityToModel (sample_transaction "trans-123" "SUCCESS" f64_100_50 f64_zero f64_zero))
         empty_db = Some row
    /\ fst (snd (postgres.Create (sample_transaction "trans-123" "SUCCESS" f64_100_50 f64_zero f64_zero) empty_db))
       = set_ID (postgres.ID row) (sample_transaction "trans-123" "SUCCESS" f64_100_50 f64_zero f64_zero)
    /\ ID (fst (snd (postgres.Create (sample_transaction "trans-123" "SUCCESS" f64_100_50 f64_zero f64_zero) empty_db)))
       = postgres.ID row.
Proof.
  apply (create_overwrites_only_ID
           (sample_transaction "trans-123" "SUCCESS" f64_100_50 f64_zero f64_zero)
           (fst (snd (postgres.Create (sample_transaction "trans-123" "SUCCESS" f64_100_50 f64_zero f64_zero) empty_db)))
           empty_db
           (fst (postgres.Create (sample_transaction "trans-123" "SUCCESS" f64_100_50 f64_zero f64_zero) empty_db))).
  vm_compute. reflexivity.
Defined.

(** A wire message with the given timestamp array for [createdAt], amount,
    description and payment method. *)
Definition sample_message (created : list deliveries.json) (amount : float64)
    (description payment_method : string) : deliveries.KafkaTransactionMessage :=
  {| deliveries.ID := "trans-id-123"; deliveries.UserID := 456;
     deliveries.AccountID := "account-456"; deliveries.TransactionID := "trans-456";
     deliveries.TransactionType := "TOPUP"; deliveries.TransactionStatus := "SUCCESS";
     deliveries.Amount := amount; deliveries.BalanceBefore := f64_of_Z 1000;
     deliveries.BalanceAfter := f64_of_Z 1100; deliveries.Currency := "IDR";
     deliveries.Description := description; deliveries.ExternalReference := None;
     deliveries.PaymentMethod := payment_method; deliveries.Metadata := None;
     deliveries.IsAccessibleFromExternal := true; deliveries.CreatedAt := created;
     deliveries.UpdatedAt :=
       List.map (fun z => deliveries.JNumber (f64_of_Z z)) [2024; 1; 1; 12; 0; 0] |}.

Definition good_timestamp : list deliveries.json :=
  List.map (fun z => deliveries.JNumber (f64_of_Z z)) [2024; 2; 20; 14; 15; 30].

(** C5: the amount of the translated record is the wire amount divided by
    the float64 constant 100 (IEEE binary64 division, the only rounding
    being that of float64 itself), and that constant is exactly 100. *)
Theorem translate_amount_div_100 (nowCreated nowUpdated : Time)
    (msg : deliveries.KafkaTransactionMessage) (logs : list event)
    (t : Transaction) (e : option error) :
  deliveries.kafkaMessageToEntity nowCreated nowUpdated msg = deliveries.Normal (logs, (t, e)) ->
  Amount t = f64_div (deliveries.Amount msg) (f64_of_Z 100)
  /\ f64_value (f64_of_Z 100) = Some (100 * 2 ^ 46, -46)
  /\ e = None.
Proof.
  translate_cases; (split; [reflexivity | split; [vm_compute; reflexivity | reflexivity]]).
Qed.

Lemma translate_amount_div_100_witness :
  (f64_div (f64_of_Z 15025) (f64_of_Z 100) = binary_normalize f64_prec f64_emax 601 (-2) false)
  /\ Amount (fst (snd (let r := deliveries.kafkaMessageToEntity 0 0
                                   (sample_message good_timestamp (f64_of_Z 15025) "" "") in
                       match r with deliveries.Normal x => x | deliveries.Panic _ => ([], (sample_transaction "" "" f64_zero f64_zero f64_zero, None)) end)))
     = f64_div (f64_of_Z 15025) (f64_of_Z 100)
  /\ f64_value (f64_of_Z 100) = Some (100 * 2 ^ 46, -46).
Proof.
  split; [vm_compute; reflexivity|].
  destruct (translate_amount_div_100 0 0 (sample_message good_timestamp (f64_of_Z 15025) "" "")
              [] (fst (snd (let r := deliveries.kafkaMessageToEntity 0 0
                                   (sample_message good_timestamp (f64_of_Z 15025) "" "") in
                       match r with deliveries.Normal x => x | deliveries.Panic _ => ([], (sample_transaction "" "" f64_zero f64_zero f64_zero, None)) end)))
              None) as [Ha [Hv _]].
  - vm_compute. reflexivity.
  - split; [exact Ha | exact Hv].
Defined.

(** C6: in the translated record, an empty wire description (resp. payment
    method) becomes absent, and a non-empty one is carried over as
    present. *)
Theorem translate_optional_text (nowCreated nowUpdated : Time)
    (msg : deliveries.KafkaTransactionMessage) (logs : list event)
    (t : Transaction) (e : option error) :
  deliveries.kafkaMessageToEntity nowCreated nowUpdated msg = deliveries.Normal (logs, (t, e)) ->
  (deliveries.Description msg = ""%string -> Description t = None)
  /\ (deliveries.Description msg <> ""%string -> Description t = Some (deliveries.Description msg))
  /\ (deliveries.PaymentMethod msg = ""%string -> PaymentMethod t = None)
  /\ (deliveries.PaymentMethod msg <> ""%string -> PaymentMethod t = Some (deliveries.PaymentMethod msg)).
Proof.
  translate_cases;
  (repeat split; intro Hd;
   first [rewrite Hd; reflexivity
         |apply String.eqb_neq in Hd; rewrite Hd; reflexivity]).
Qed.

Lemma translate_optional_text_witness :
  let r := deliveries.kafkaMessageToEntity 0 0
             (sample_message good_timestamp (f64_of_Z 15025) "" "BANK_TRANSFER") in
  let t := match r with
           | deliveries.Normal (_, (t, _)) => t
           | deliveries.Panic _ => sample_transaction "" "" f64_zero f64_zero f64_zero
           end in
  Description t = None /\ PaymentMethod t = Some "BANK_TRANSFER"%string.
Proof.
  intros r t.
  destruct (translate_optional_text 0 0
              (sample_message good_timestamp (f64_of_Z 15025) "" "BANK_TRANSFER") [] t None)
    as [Hd1 [_ [_ Hp2]]].
  - vm_compute. reflexivity.
  - split.
    + apply Hd1. reflexivity.
    + apply Hp2. discriminate.
Defined.

(** ** The use case against the PostgreSQL repository *)

Lemma count_transaction_id_app (id : string) (rs rs' : list postgres.TransactionModel) :
  postgres.count_transaction_id id (rs ++ rs')
  = (postgres.count_transaction_id id rs + postgres.count_transaction_id id rs')%nat.
Proof. unfold postgres.count_transaction_id. rewrite List.filter_app, List.length_app. reflexivity. Qed.

(** [Create] on an available table whose column types accept the record,
    without a row holding the stored id or the stored transaction id,
    appends the stored row. *)
Lemma pg_create_success (t : Transaction) (db : postgres.DB) (row : postgres.TransactionModel) :
  postgres.available db = true ->
  postgres.stored_model (postgres.entityToModel t) db = Some row ->
  List.existsb (fun r => String.eqb (postgres.ID r) (postgres.ID row)) (postgres.rows db) = false ->
  postgres.count_transaction_id (postgres.TransactionID row) (postgres.rows db) = 0%nat ->
  postgres.Create t db =
    ({| postgres.rows := postgres.rows db ++ [row];
        postgres.available := true;
        postgres.uuid_seq := snd (postgres.assigned_id (postgres.entityToModel t) db);
        postgres.clock := postgres.clock db; postgres.columns := postgres.columns db |},
     (set_ID (postgres.ID row) t, None)).
Proof.
  intros Ha Hs Hpk Hc. unfold postgres.Create, postgres.insert. rewrite Ha, Hs. simpl.
  rewrite Hpk, Hc. reflexivity.
Qed.

Lemma existsb_is_create_app (l1 l2 : list event) :
  List.existsb is_create (l1 ++ l2) = List.existsb is_create l1 || List.existsb is_create l2.
Proof. apply List.existsb_app. Qed.

(** C1 (as amended): two valid records with the same transaction id,
    processed one after the other against an available table that has no
    row for that id, where the column types accept the first record's
    values (after gorm's defaults) and store its transaction id unchanged,
    and no row holds the id the insert assigns: the first is [Written], the
    second [Skipped] without any create call, and the table ends with
    exactly one row for the id. *)
Theorem process_twice_written_then_skipped (r r2 : Transaction) (db : postgres.DB)
    (row : postgres.TransactionModel) :
  IsValid r = true -> IsValid r2 = true -> TransactionID r2 = TransactionID r ->
  postgres.available db = true ->
  postgres.count_transaction_id (TransactionID r) (postgres.rows db) = 0%nat ->
  postgres.stored_model (postgres.entityToModel r) db = Some row ->
  postgres.TransactionID row = TransactionID r ->
  List.existsb (fun x => String.eqb (postgres.ID x) (postgres.ID row)) (postgres.rows db) = false ->
  let '(db1, tr1, (_, err1)) := ProcessTransaction r db in
  let '(db2, tr2, (_, err2)) := ProcessTransaction r2 db1 in
  outcome_of tr1 err1 = Written /\ outcome_of tr2 err2 = Skipped
  /\ List.existsb is_create tr2 = false
  /\ postgres.count_transaction_id (TransactionID r) (postgres.rows db2) = 1%nat.
Proof.
  intros Hv Hv2 Hid Ha Hc Hs Htx Hpk.
  assert (Hc' : postgres.count_transaction_id (postgres.TransactionID row) (postgres.rows db) = 0%nat)
    by (rewrite Htx; exact Hc).
  pose proof (pg_create_success r db row Ha Hs Hpk Hc') as Hcr.
  assert (He : @Exists _ postgres.transactionRepository (TransactionID r) db = (db, (false, None))).
  { simpl. unfold postgres.Exists. rewrite Ha, Hc. reflexivity. }
  rewrite (@process_create _ postgres.transactionRepository r _ db db _ None Hv He Hcr).
  set (db1 := {| postgres.rows := _; postgres.available := _; postgres.uuid_seq := _;
                 postgres.clock := _; postgres.columns := _ |}).
  assert (Hc1 : postgres.count_transaction_id (TransactionID r) (postgres.rows db1) = 1%nat).
  { simpl. rewrite count_transaction_id_app, Hc. simpl.
    unfold postgres.count_transaction_id. simpl. rewrite Htx, String.eqb_refl. reflexivity. }
  assert (He2 : @Exists _ postgres.transactionRepository (TransactionID r2) db1 = (db1, (true, None))).
  { simpl. unfold postgres.Exists. rewrite Hid, Hc1. reflexivity. }
  rewrite (@process_skip _ postgres.transactionRepository r2 db1 db1 Hv2 He2).
  unfold outcome_of. rewrite !existsb_is_create_app. simpl.
  rewrite Bool.orb_true_r. repeat split. exact Hc1.
Qed.

Definition record_a : Transaction := sample_transaction "trans-456" "SUCCESS" f64_100_50 f64_zero f64_zero.
Definition record_b : Transaction := sample_transaction "trans-456" "FAILED" f64_100_50 f64_zero f64_zero.

Lemma process_twice_written_then_skipped_witness :
  let '(db1, tr1, (_, err1)) := ProcessTransaction record_a empty_db in
  let '(db2, tr2, (_, err2)) := ProcessTransaction record_b db1 in
  outcome_of tr1 err1 = Written /\ outcome_of tr2 err2 = Skipped
  /\ List.existsb is_create tr2 = false
  /\ postgres.count_transaction_id (TransactionID record_a) (postgres.rows db2) = 1%nat.
Proof.
  apply (process_twice_written_then_skipped record_a record_b empty_db
           (postgres.with_ID "uuid-0" (postgres.entityToModel record_a)));
    vm_compute; reflexivity.
Defined.

(** C1, as stated, fails: a record that violates the invariants is rejected
    on both calls, even against an empty, available table. *)
Lemma process_twice_counterexample :
  ~ (forall (r r2 : Transaction) (db : postgres.DB),
       postgres.available db = true -> postgres.rows db = [] ->
       TransactionID r2 = TransactionID r ->
       let '(db1, tr1, (_, err1)) := ProcessTransaction r db in
       let '(db2, tr2, (_, err2)) := ProcessTransaction r2 db1 in
       outcome_of tr1 err1 = Written /\ outcome_of tr2 err2 = Skipped
       /\ List.existsb is_create tr2 = false
       /\ postgres.count_transaction_id (TransactionID r) (postgres.rows db2) = 1%nat).
Proof.
  intro H.
  specialize (H (sample_transaction "trans-456" "SUCCESS" f64_zero f64_zero f64_zero)
                (sample_transaction "trans-456" "SUCCESS" f64_zero f64_zero f64_zero)
                empty_db eq_refl eq_refl eq_refl).
  vm_compute in H. destruct H as [H _]. discriminate H.
Qed.

(** ** The check-then-create race *)

(** Another consumer's record for the same transaction id, committed between
    this writer's existence query and its insert. *)
Definition racing_state : concurrent.St :=
  (empty_db, [sample_transaction "trans-789" "SUCCESS" f64_100_50 f64_zero f64_zero]).
Definition racing_record : Transaction :=
  sample_transaction "trans-789" "PENDING" f64_100_50 f64_zero f64_zero.

Example racing_create_hits_unique_index :
  snd (snd (concurrent.Create racing_record (fst (concurrent.Exists "trans-789" racing_state))))
  = Some (ErrCreateTransaction (ErrDb (DbUniqueViolation postgres.transaction_id_index))).
Proof. vm_compute. reflexivity. Qed.

(** C3 (as amended): once the existence check has reported the id absent,
    any error of [Create], a unique-constraint violation included, is
    returned wrapped as "failed to create transaction": the [Failed]
    outcome.  No error is told apart from another. *)
Theorem process_create_error_is_failed {St : Type} `{TransactionRepository St}
    (t t' : Transaction) (s s1 s2 : St) (e : error) :
  IsValid t = true -> Exists (TransactionID t) s = (s1, (false, None)) ->
  Create t s1 = (s2, (t', Some e)) ->
  let '(s', tr, (_, err)) := ProcessTransaction t s in
  s' = s2 /\ err = Some (ErrCreateTransaction e) /\ outcome_of tr err = Failed.
Proof.
  intros Hv He Hc. rewrite (process_create t t' s s1 s2 (Some e) Hv He Hc).
  repeat split.
Qed.

Lemma process_create_error_is_failed_witness :
  let s1 := fst (concurrent.Exists "trans-789" racing_state) in
  let s2 := fst (concurrent.Create racing_record s1) in
  let '(s', tr, (_, err)) := ProcessTransaction racing_record racing_state in
  s' = s2
  /\ err = Some (ErrCreateTransaction
                   (ErrCreateTransaction (ErrDb (DbUniqueViolation postgres.transaction_id_index))))
  /\ outcome_of tr err = Failed.
Proof.
  intros s1 s2.
  apply (process_create_error_is_failed racing_record racing_record racing_state s1 s2
           (ErrCreateTransaction (ErrDb (DbUniqueViolation postgres.transaction_id_index))));
    vm_compute; reflexivity.
Defined.

(** C3, as stated, fails: when the insert violates the unique index on
    [transaction_id], [ProcessTransaction] returns an error, the [Failed]
    outcome, where [Skipped] returns none. *)
Lemma constraint_violation_not_skipped :
  let '(_, tr, (_, err)) := ProcessTransaction racing_record racing_state in
  err = Some (ErrCreateTransaction
                (ErrCreateTransaction (ErrDb (DbUniqueViolation postgres.transaction_id_index))))
  /\ outcome_of tr err = Failed /\ outcome_of tr err <> Skipped.
Proof. vm_compute. split; [reflexivity | split; [reflexivity | discriminate]]. Qed.

(** ** The balance check is a diagnostic only *)

Definition is_balance_warning (e : event) : bool :=
  match e with
  | EvLog LWarn msg => String.eqb msg "Failed transaction has balance change"
  | _ => false
  end.

Section WithoutBalanceCheck.
Context {St : Type} `{TransactionRepository St}.

(** [ProcessTransaction] with lines 44-48 (the balance check) removed. *)
Definition ProcessTransaction_without_balance_check (t : Transaction)
  : M St (Transaction * option error) :=
  if negb (IsValid t) then ret (t, Some ErrInvalidTransactionData) else
  r <- callExists (TransactionID t) ;;
  let '(exists_, err) := r in
  match err with
  | Some e =>
      logm LError "Failed to check transaction existence" ;;;
      ret (t, Some (ErrCheckExistence e))
  | None =>
      if exists_ then
        logm LInfo "Transaction already exists, skipping" ;;; ret (t, None)
      else
        c <- callCreate t ;;
        let '(t', cerr) := c in
        match cerr with
        | Some e =>
            logm LError "Failed to create transaction" ;;;
            ret (t', Some (ErrCreateTransaction e))
        | None =>
            logm LInfo "Transaction processed successfully" ;;; ret (t', None)
        end
  end.

Lemma without_check_invalid (t : Transaction) (s : St) :
  IsValid t = false ->
  ProcessTransaction_without_balance_check t s = (s, [], (t, Some ErrInvalidTransactionData)).
Proof. intro Hv. unfold ProcessTransaction_without_balance_check. rewrite Hv. reflexivity. Qed.

Lemma without_check_valid (t : Transaction) (s : St) :
  IsValid t = true ->
  ProcessTransaction_without_balance_check t s =
    let '(s1, r) := Exists (TransactionID t) s in
    match r with
    | (_, Some e) =>
        (s1, [EvExists (TransactionID t); EvLog LError "Failed to check transaction existence"],
         (t, Some (ErrCheckExistence e)))
    | (true, None) =>
        (s1, [EvExists (TransactionID t); EvLog LInfo "Transaction already exists, skipping"],
         (t, None))
    | (false, None) =>
        let '(s2, (t', cerr)) := Create t s1 in
        (s2, [EvExists (TransactionID t)] ++ [EvCreate (TransactionID t)]
             ++ [match cerr with
                 | Some _ => EvLog LError "Failed to create transaction"
                 | None => EvLog LInfo "Transaction processed successfully"
                 end],
         (t', match cerr with Some e => Some (ErrCreateTransaction e) | None => None end))
    end.
Proof.
  intro Hv. unfold ProcessTransaction_without_balance_check. rewrite Hv. simpl.
  unfold callExists, callCreate, logm; unfold bind, emit, ret. simpl.
  destruct (Exists (TransactionID t) s) as [s1 [[|] [e|]]]; simpl; try reflexivity.
  destruct (Create t s1) as [s2 [t' [e|]]]; reflexivity.
Qed.

End WithoutBalanceCheck.

(** C7 (as amended): the balance check changes nothing but the
    diagnostics.  [ProcessTransaction] ends in the same repository state,
    with the same record and the same returned error, as the procedure with
    the balance check removed; its trace is that procedure's trace plus the
    warning; and the warning is emitted exactly when the record is valid,
    the existence check succeeds reporting the id absent, the status is
    FAILED and the balances differ. *)
Theorem process_balance_warning_additive {St : Type} `{TransactionRepository St}
    (t : Transaction) (s : St) :
  let '(s1, tr1, r1) := ProcessTransaction t s in
  let '(s2, tr2, r2) := ProcessTransaction_without_balance_check t s in
  s1 = s2 /\ r1 = r2
  /\ List.filter (fun e => negb (is_balance_warning e)) tr1 = tr2
  /\ (List.existsb is_balance_warning tr1 = true <->
      IsValid t = true
      /\ (exists s', Exists (TransactionID t) s = (s', (false, None)))
      /\ TransactionStatus t = TransactionStatusFailed
      /\ f64_neq (BalanceBefore t) (BalanceAfter t) = true).
Proof.
  destruct (IsValid t) eqn:Hv.
  - rewrite (without_check_valid t s Hv).
    destruct (Exists (TransactionID t) s) as [s1 [[|] [e|]]] eqn:He.
    + rewrite (process_exists_error t s s1 true e Hv He). simpl.
      repeat split; try reflexivity; try discriminate;
        intros [_ [[s' Hs'] _]]; congruence.
    + rewrite (process_skip t s s1 Hv He). simpl.
      repeat split; try reflexivity; try discriminate;
        intros [_ [[s' Hs'] _]]; congruence.
    + rewrite (process_exists_error t s s1 false e Hv He). simpl.
      repeat split; try reflexivity; try discriminate;
        intros [_ [[s' Hs'] _]]; congruence.
    + destruct (Create t s1) as [s2 [t' cerr]] eqn:Hc.
      rewrite (process_create t t' s s1 s2 cerr Hv He Hc).
      unfold balance_warning.
      destruct (String.eqb (TransactionStatus t) TransactionStatusFailed) eqn:Hst;
      [destruct (f64_neq (BalanceBefore t) (BalanceAfter t)) eqn:Hb|];
      destruct cerr; simpl;
      (split; [reflexivity|]); (split; [reflexivity|]); (split; [reflexivity|]);
      (apply String.eqb_eq in Hst || apply String.eqb_neq in Hst);
      first
        [ split; intros _; repeat split; try (exists s1; reflexivity); exact Hst
        | split; [intro Hx; discriminate Hx | intros [_ [_ [Hs Hn]]]; congruence] ].
  - rewrite (process_invalid t s Hv), (without_check_invalid t s Hv). simpl.
    repeat split; try discriminate. intros [Hx _]. discriminate Hx.
Qed.

(** C7, as stated, fails: an invalid FAILED record whose balances differ is
    rejected, and no warning is emitted. *)
Lemma balance_warning_not_always_emitted :
  let t := sample_transaction "trans-failed" "FAILED" f64_zero (f64_of_Z 1000) (f64_of_Z 900) in
  TransactionStatus t = TransactionStatusFailed
  /\ f64_neq (BalanceBefore t) (BalanceAfter t) = true
  /\ (let '(_, tr, (_, err)) := ProcessTransaction t empty_db in
      List.existsb is_balance_warning tr = false /\ outcome_of tr err = Rejected).
Proof. vm_compute. repeat split. Qed.

(** ** The translator's timestamp fallback *)

(** An array shorter than six elements is replaced by the wall-clock
    reading, with a warning, and the translation goes on. *)
Lemma translate_short_createdAt_uses_now (nowCreated nowUpdated : Time)
    (msg : deliveries.KafkaTransactionMessage) (u : Time * option error) :
  (List.length (deliveries.CreatedAt msg) < 6)%nat ->
  deliveries.parseTimestamp (deliveries.UpdatedAt msg) = deliveries.Normal u ->
  exists logs t,
    deliveries.kafkaMessageToEntity nowCreated nowUpdated msg = deliveries.Normal (logs, (t, None))
    /\ CreatedAt t = nowCreated
    /\ List.In (EvLog LWarn "Failed to parse createdAt, using current time") logs.
Proof.
  intros Hlen Hu.
  unfold deliveries.kafkaMessageToEntity, deliveries.gbind.
  assert (Hc : deliveries.parseTimestamp (deliveries.CreatedAt msg)
               = deliveries.Normal (deliveries.time_zero,
                                    Some (ErrTimestampLength (List.length (deliveries.CreatedAt msg))))).
  { unfold deliveries.parseTimestamp. apply Nat.ltb_lt in Hlen. rewrite Hlen. reflexivity. }
  rewrite Hc, Hu. destruct u as [ut [ue|]]; simpl;
    (eexists; eexists; split; [reflexivity | split; [reflexivity | left; reflexivity]]).
Qed.

(** [createdAt] with a string where the year should be. *)
Definition string_year_timestamp : list deliveries.json :=
  deliveries.JString "2024"
  :: List.map (fun z => deliveries.JNumber (f64_of_Z z)) [1; 15; 10; 30; 45].

(** C4 (code defect): for a six-element [createdAt] whose first member is
    a JSON string, the unchecked type assertion [timestampArray[0].(float64)]
    panics, so translation aborts instead of falling back to the current
    time; an array that is merely too short does fall back
    ([translate_short_createdAt_uses_now]). *)
Theorem translate_non_numeric_timestamp_panics :
  deliveries.kafkaMessageToEntity 0 0 (sample_message string_year_timestamp (f64_of_Z 15025) "" "")
  = deliveries.Panic "interface conversion: interface {} is not float64"
  /\ deliveries.parseTimestamp string_year_timestamp
     = deliveries.Panic "interface conversion: interface {} is not float64".
Proof. split; vm_compute; reflexivity. Qed.

(** ** The consumer loop *)

Lemma loop_turns_ok {HS : Type} (handler : string -> HS -> deliveries.go (HS * option error))
    (rs : list consumer.round) (hs : HS) :
  let '(_, tr, _) := consumer.loop handler rs hs in
  consumer.turns_ok (consumer.actions tr) = true.
Proof.
  revert hs; induction rs as [|r rs IH]; intro hs; simpl; [reflexivity|].
  destruct (consumer.ctx_at_select r); try reflexivity.
  destruct (consumer.fetch r) as [m|e].
  - destruct (handler (consumer.Value m) hs) as [[hs1 herr]|why]; [|reflexivity].
    specialize (IH hs1). destruct (consumer.loop handler rs hs1) as [[hs' tr] res].
    unfold consumer.actions in *.
    destruct herr, (consumer.commit_result r); simpl; rewrite Message_eqb_refl; exact IH.
  - destruct (consumer.errors_Is e ErrContextCanceled); [reflexivity|].
    specialize (IH hs). destruct (consumer.loop handler rs hs) as [[hs' tr] res].
    exact IH.
Qed.

(** C8: whatever the handler returns (nil, or any error), every message the
    loop fetches is handed to the handler once and, once the handler has
    returned, committed exactly once, before the next fetch: with the
    diagnostics left out, the trace of [Consume] is a sequence of turns
    "fetch, back-off" and "fetch m, handler returned on m, commit m",
    possibly ending in a fetch after which the loop stopped. *)
Theorem consume_commits_each_message_once {HS : Type}
    (handler : string -> HS -> deliveries.go (HS * option error))
    (rs : list consumer.round) (hs : HS) :
  let '(_, tr, _) := consumer.Consume handler rs hs in
  consumer.turns_ok (consumer.actions tr) = true.
Proof.
  unfold consumer.Consume. pose proof (loop_turns_ok handler rs hs) as Hl.
  destruct (consumer.loop handler rs hs) as [[hs' tr] res]. exact Hl.
Qed.

Definition accept_all (v : string) (hs : unit) : deliveries.go (unit * option error) :=
  deliveries.Normal (tt, None).

Definition topup_message : consumer.Message :=
  {| consumer.Offset := 0; consumer.Value := "trans-456 TOPUP" |}.

(** C9 (code defect): cancellation seen by the [select] makes [Consume]
    return [ctx.Err()], i.e. [context.Canceled], a non-nil error; only a
    cancellation that interrupts [FetchMessage] returns nil. *)
Theorem consume_cancel_at_select_returns_error :
  snd (consumer.Consume accept_all
         [consumer.mkRound consumer.CtxActive (consumer.Fetched topup_message) None;
          consumer.mkRound consumer.CtxCanceled (consumer.FetchFailed ErrContextCanceled) None] tt)
  = consumer.Returned (Some ErrContextCanceled)
  /\ snd (consumer.Consume accept_all
            [consumer.mkRound consumer.CtxActive (consumer.FetchFailed ErrContextCanceled) None] tt)
     = consumer.Returned None.
Proof. split; reflexivity. Qed.

(** ** Further properties: the PostgreSQL repository *)

(** The table's constraints: primary keys and transaction ids are unique. *)
Definition unique_keys (db : postgres.DB) : Prop :=
  NoDup (List.map postgres.ID (postgres.rows db))
  /\ NoDup (List.map postgres.TransactionID (postgres.rows db)).

Lemma NoDup_snoc {A : Type} (l : list A) (x : A) :
  NoDup l -> ~ List.In x l -> NoDup (l ++ [x]).
Proof.
  induction l as [|a l IH]; simpl; intros Hnd Hin.
  - constructor; [intros []|constructor].
  - inversion Hnd as [|? ? Ha Hl]; subst. constructor.
    + rewrite List.in_app_iff. intros [Hx|[Hx|[]]]; [tauto|]. subst. tauto.
    + apply IH; tauto.
Qed.

Lemma count_transaction_id_zero (id : string) (rs : list postgres.TransactionModel) :
  postgres.count_transaction_id id rs = 0%nat <->
  ~ List.In id (List.map postgres.TransactionID rs).
Proof.
  unfold postgres.count_transaction_id. induction rs as [|r rs IH]; simpl.
  - tauto.
  - destruct (String.eqb (postgres.TransactionID r) id) eqn:He; simpl.
    + apply String.eqb_eq in He. split; [discriminate|]. intro Hn. exfalso. apply Hn. left. exact He.
    + apply String.eqb_neq in He. rewrite IH. split.
      * intros Hn [Hx|Hx]; [congruence|tauto].
      * intros Hn Hx. apply Hn. right. exact Hx.
Qed.

Lemma count_transaction_id_zero_filter (id : string) (rs : list postgres.TransactionModel) :
  postgres.count_transaction_id id rs = 0%nat ->
  List.filter (fun m => String.eqb (postgres.TransactionID m) id) rs = [].
Proof.
  unfold postgres.count_transaction_id.
  destruct (List.filter _ rs); simpl; [reflexivity|discriminate].
Qed.

Lemma existsb_ID_false (id : string) (rs : list postgres.TransactionModel) :
  List.existsb (fun r => String.eqb (postgres.ID r) id) rs = false ->
  ~ List.In id (List.map postgres.ID rs).
Proof.
  induction rs as [|r rs IH]; simpl; [tauto|].
  intro H. apply Bool.orb_false_iff in H as [H1 H2].
  apply String.eqb_neq in H1. intros [Hx|Hx]; [congruence|]. apply IH; assumption.
Qed.

(** The result of [insert], by cases. *)
Lemma insert_cases (m : postgres.TransactionModel) (db db' : postgres.DB)
    (r : postgres.TransactionModel + db_error) :
  postgres.insert m db = (db', r) ->
  (db' = db /\ exists e, r = inr e)
  \/ (postgres.available db = true
      /\ exists row, postgres.stored_model m db = Some row
      /\ List.existsb (fun x => String.eqb (postgres.ID x) (postgres.ID row))
                      (postgres.rows db) = false
      /\ postgres.count_transaction_id (postgres.TransactionID row) (postgres.rows db) = 0%nat
      /\ r = inl row
      /\ db' = {| postgres.rows := postgres.rows db ++ [row];
                  postgres.available := true;
                  postgres.uuid_seq := snd (postgres.assigned_id m db);
                  postgres.clock := postgres.clock db;
                  postgres.columns := postgres.columns db |}).
Proof.
  unfold postgres.insert.
  destruct (postgres.available db) eqn:Ha; simpl;
    [|intro Heq; injection Heq as <- <-; left; split; [reflexivity|eexists; reflexivity]].
  destruct (postgres.stored_model m db) as [row|] eqn:Hs;
    [|intro Heq; injection Heq as <- <-; left; split; [reflexivity|eexists; reflexivity]].
  destruct (List.existsb _ _) eqn:Hpk; simpl;
    [intro Heq; injection Heq as <- <-; left; split; [reflexivity|eexists; reflexivity]|].
  destruct (0 <? postgres.count_transaction_id (postgres.TransactionID row) (postgres.rows db))%nat
    eqn:Hc; simpl;
    [intro Heq; injection Heq as <- <-; left; split; [reflexivity|eexists; reflexivity]|].
  intro Heq; injection Heq as <- <-. right.
  apply Nat.ltb_ge in Hc. split; [reflexivity|]. exists row.
  repeat split; auto; lia.
Qed.

(** X1: [Create] keeps the table's constraints: if primary keys and
    transaction ids are unique before, they are unique after, whatever the
    outcome. *)
Theorem create_preserves_unique_keys (t : Transaction) (db db' : postgres.DB)
    (r : Transaction * option error) :
  unique_keys db -> postgres.Create t db = (db', r) -> unique_keys db'.
Proof.
  intros [Hid Htx] Hc. unfold postgres.Create in Hc.
  destruct (postgres.insert (postgres.entityToModel t) db) as [db1 r1] eqn:Hi.
  destruct (insert_cases _ _ _ _ Hi) as [[-> _] | [Ha [row [Hs [Hpk [Hcnt [-> ->]]]]]]].
  - destruct r1; injection Hc as <- _; split; assumption.
  - injection Hc as <- _. unfold unique_keys; simpl. rewrite !List.map_app. simpl. split.
    + apply NoDup_snoc; [exact Hid|]. apply existsb_ID_false. exact Hpk.
    + apply NoDup_snoc; [exact Htx|]. apply count_transaction_id_zero. exact Hcnt.
Qed.

Lemma create_preserves_unique_keys_witness :
  unique_keys (fst (postgres.Create record_a empty_db)).
Proof.
  apply (create_preserves_unique_keys record_a empty_db _ (snd (postgres.Create record_a empty_db))).
  - split; constructor.
  - reflexivity.
Defined.

(** X2: a failed [Create] changes neither the table nor the caller's
    record. *)
Theorem create_failure_changes_nothing (t t' : Transaction) (db db' : postgres.DB) (e : error) :
  postgres.Create t db = (db', (t', Some e)) -> db' = db /\ t' = t.
Proof.
  intro Hc. unfold postgres.Create in Hc.
  destruct (postgres.insert (postgres.entityToModel t) db) as [db1 r1] eqn:Hi.
  destruct (insert_cases _ _ _ _ Hi) as [[-> [e' ->]] | [_ [row [_ [_ [_ [-> ->]]]]]]].
  - injection Hc as <- <- _. split; reflexivity.
  - discriminate Hc.
Qed.

Lemma create_failure_changes_nothing_witness :
  fst (postgres.Create record_b (fst (postgres.Create record_a empty_db)))
    = fst (postgres.Create record_a empty_db)
  /\ fst (snd (postgres.Create record_b (fst (postgres.Create record_a empty_db)))) = record_b.
Proof.
  apply (create_failure_changes_nothing record_b _ (fst (postgres.Create record_a empty_db)) _
           (ErrCreateTransaction (ErrDb (DbUniqueViolation postgres.transaction_id_index)))).
  vm_compute. reflexivity.
Defined.

(** X3: round trip.  After a successful [Create], [GetByTransactionID] of
    the stored row's transaction id returns that row, read back through
    [modelToEntity], without error; its [ID] is the one the caller's
    record now holds. *)
Theorem create_then_get (t t' : Transaction) (db db' : postgres.DB) :
  postgres.Create t db = (db', (t', None)) ->
  exists row, postgres.stored_model (postgres.entityToModel t) db = Some row
    /\ postgres.GetByTransactionID (postgres.TransactionID row) db'
       = (db', (Some (postgres.modelToEntity row), None))
    /\ ID t' = postgres.ID row.
Proof.
  intro Hc. unfold postgres.Create in Hc.
  destruct (postgres.insert (postgres.entityToModel t) db) as [db1 r1] eqn:Hi.
  destruct (insert_cases _ _ _ _ Hi) as [[-> [e ->]] | [Ha [row [Hs [Hpk [Hcnt [-> ->]]]]]]];
    [discriminate Hc|].
  injection Hc as <- <-. exists row. split; [exact Hs|]. split; [|reflexivity].
  unfold postgres.GetByTransactionID. simpl.
  rewrite List.filter_app.
  pose proof (count_transaction_id_zero_filter _ _ Hcnt) as Hf. simpl in Hf.
  rewrite Hf. simpl.
  rewrite String.eqb_refl. reflexivity.
Qed.

Lemma create_then_get_witness :
  exists row, postgres.stored_model (postgres.entityToModel record_a) empty_db = Some row
    /\ postgres.GetByTransactionID (postgres.TransactionID row)
         (fst (postgres.Create record_a empty_db))
       = (fst (postgres.Create record_a empty_db), (Some (postgres.modelToEntity row), None))
    /\ ID (fst (snd (postgres.Create record_a empty_db))) = postgres.ID row.
Proof.
  apply (create_then_get record_a _ empty_db _). vm_compute. reflexivity.
Defined.

Lemma first_by_primary_key_None (rs : list postgres.TransactionModel) :
  postgres.first_by_primary_key rs = None <-> rs = [].
Proof.
  destruct rs as [|r rs]; simpl; [tauto|].
  destruct (postgres.first_by_primary_key rs); [destruct (String.leb _ _)|];
    split; discriminate.
Qed.

(** X4: on an answering database, a transaction id without a row is not an
    error for [GetByTransactionID]: it returns a nil record and a nil error
    exactly when [Exists] reports false; neither call changes the table. *)
Theorem get_missing_iff_not_exists (id : string) (db : postgres.DB) :
  postgres.available db = true ->
  (postgres.GetByTransactionID id db = (db, (None, None))
   <-> postgres.Exists id db = (db, (false, None))).
Proof.
  intro Ha. unfold postgres.GetByTransactionID, postgres.Exists, postgres.count_transaction_id.
  rewrite Ha. cbv beta iota delta [negb].
  destruct (List.filter (fun m => String.eqb (postgres.TransactionID m) id) (postgres.rows db))
    as [|r rs] eqn:Hf; [simpl; tauto|].
  destruct (postgres.first_by_primary_key (r :: rs)) as [m|] eqn:Hfp.
  - simpl. split; intro H; discriminate H.
  - apply first_by_primary_key_None in Hfp. discriminate Hfp.
Qed.

Lemma get_missing_iff_not_exists_witness :
  postgres.available (fst (postgres.Create record_a empty_db)) = true
  /\ (postgres.GetByTransactionID "trans-999" (fst (postgres.Create record_a empty_db))
        = (fst (postgres.Create record_a empty_db), (None, None))
      <-> postgres.Exists "trans-999" (fst (postgres.Create record_a empty_db))
        = (fst (postgres.Create record_a empty_db), (false, None))).
Proof.
  split; [vm_compute; reflexivity|].
  apply get_missing_iff_not_exists. vm_compute. reflexivity.
Defined.

Lemma pg_exists_keeps_db (id : string) (db db1 : postgres.DB) (r : bool * option error) :
  postgres.Exists id db = (db1, r) -> db1 = db.
Proof.
  unfold postgres.Exists. destruct (negb (postgres.available db));
    intro H; injection H as <- _; reflexivity.
Qed.

Lemma balance_warning_no_create (t : Transaction) :
  List.existsb is_create (balance_warning t) = false.
Proof.
  unfold balance_warning.
  destruct (String.eqb _ _); [destruct (f64_neq _ _)|]; reflexivity.
Qed.

(** X5: on the PostgreSQL repository, [ProcessTransaction] never modifies
    or deletes a row: the table after the call is the table before it
    followed by at most one new row, a row is added exactly when the outcome
    is [Written], and the uniqueness of ids and transaction ids is kept. *)
Theorem process_appends_at_most_one_row (t : Transaction) (db : postgres.DB) :
  unique_keys db ->
  let '(db', tr, (_, err)) := ProcessTransaction t db in
  unique_keys db'
  /\ exists extra, postgres.rows db' = postgres.rows db ++ extra
     /\ (List.length extra <= 1)%nat
     /\ (extra <> [] <-> outcome_of tr err = Written).
Proof.
  intro Hu.
  destruct (IsValid t) eqn:Hv.
  2:{ rewrite (@process_invalid _ postgres.transactionRepository t db Hv). split; [exact Hu|].
      exists []. rewrite List.app_nil_r. simpl. repeat split; try lia;
        [intro H; exfalso; apply H; reflexivity | discriminate]. }
  destruct (postgres.Exists (TransactionID t) db) as [db1 [b eo]] eqn:He.
  pose proof (pg_exists_keeps_db _ _ _ _ He) as ->.
  destruct eo as [e|].
  { rewrite (@process_exists_error _ postgres.transactionRepository t db db b e Hv He). split; [exact Hu|].
    exists []. rewrite List.app_nil_r. simpl. repeat split; try lia;
      [intro H; exfalso; apply H; reflexivity | discriminate]. }
  destruct b.
  { rewrite (@process_skip _ postgres.transactionRepository t db db Hv He). split; [exact Hu|].
    exists []. rewrite List.app_nil_r. simpl. repeat split; try lia;
      [intro H; exfalso; apply H; reflexivity | discriminate]. }
  destruct (postgres.Create t db) as [db2 [t' cerr]] eqn:Hc.
  rewrite (@process_create _ postgres.transactionRepository t t' db db db2 cerr Hv He Hc).
  split; [exact (create_preserves_unique_keys t db db2 _ Hu Hc)|].
  destruct cerr as [e|].
  - destruct (create_failure_changes_nothing t t' db db2 e Hc) as [-> _].
    exists []. rewrite List.app_nil_r. simpl. repeat split; try lia;
      [intro H; exfalso; apply H; reflexivity | discriminate].
  - unfold postgres.Create in Hc.
    destruct (postgres.insert (postgres.entityToModel t) db) as [dbi ri] eqn:Hi.
    destruct (insert_cases _ _ _ _ Hi) as [[-> [e' ->]] | [_ [row [_ [_ [_ [-> ->]]]]]]];
      [discriminate Hc|].
    injection Hc as <- _. simpl.
    eexists. split; [reflexivity|]. split; [simpl; lia|].
    unfold outcome_of. rewrite !List.existsb_app, balance_warning_no_create. simpl.
    split; [reflexivity|discriminate].
Qed.

Lemma process_appends_at_most_one_row_witness :
  unique_keys empty_db
  /\ (let '(db', tr, (_, err)) := ProcessTransaction record_a empty_db in
      unique_keys db'
      /\ exists extra, postgres.rows db' = postgres.rows empty_db ++ extra
         /\ (List.length extra <= 1)%nat
         /\ (extra <> [] <-> outcome_of tr err = Written)).
Proof.
  assert (Hu : unique_keys empty_db) by (split; constructor).
  split; [exact Hu|]. exact (process_appends_at_most_one_row record_a empty_db Hu).
Defined.

Lemma store_row_fields (c : postgres.Columns) (m row : postgres.TransactionModel) :
  postgres.store_row c m = Some row ->
  postgres.IsAccessibleFromExternal row = postgres.IsAccessibleFromExternal m
  /\ postgres.varchar c 3 (postgres.Currency m) = Some (postgres.Currency row)
  /\ postgres.timestamptz c (postgres.CreatedAt m) = Some (postgres.CreatedAt row)
  /\ postgres.timestamptz c (postgres.UpdatedAt m) = Some (postgres.UpdatedAt row).
Proof.
  unfold postgres.store_row, postgres.option_bind.
  repeat match goal with
         | |- context [match ?o with Some _ => _ | None => _ end] => destruct o eqn:?
         end;
    intro H; try discriminate H.
  injection H as <-. simpl. auto.
Qed.


(** A record the producer marks as not externally accessible, with no
    currency and no creation time. *)
Definition record_private : Transaction :=
  {| ID := ""; UserID := 123; AccountID := "account-123"; TransactionID := "trans-789";
     TransactionType := "PAYMENT"; TransactionStatus := "SUCCESS"; Amount := f64_100_50;
     BalanceBefore := f64_zero; BalanceAfter := f64_zero; Currency := "";
     Description := None; ExternalReference := None; PaymentMethod := None;
     Metadata := None; IsAccessibleFromExternal := false;
     CreatedAt := time_Date 1 1 1 0 0 0 0; UpdatedAt := 0 |}.


(** ** Further properties: the Kafka handler *)

(** A decoder for the examples: the payload ["trans-456 TOPUP"] decodes to
    [sample_message], every other payload fails to decode. *)
Definition sample_unmarshal (v : string) : option deliveries.KafkaTransactionMessage :=
  if String.eqb v "trans-456 TOPUP"
  then Some (sample_message good_timestamp (f64_of_Z 15025) "" "")
  else None.

Lemma translate_no_error (nowCreated nowUpdated : Time)
    (msg : deliveries.KafkaTransactionMessage) (logs : list event)
    (t : Transaction) (e : option error) :
  deliveries.kafkaMessageToEntity nowCreated nowUpdated msg = deliveries.Normal (logs, (t, e)) ->
  e = None.
Proof. translate_cases; reflexivity. Qed.

(** X6: once a payload decodes and its translation completes, the
    translation error is nil (the "failed to convert" return is never
    taken), and [HandleMessage] is [ProcessTransaction] on the translated
    record: same repository state, its diagnostics after the two debug logs
    and the translation warnings, and its error wrapped as "failed to
    process transaction". *)
Theorem handle_decoded_is_process {St : Type} `{TransactionRepository St}
    (unmarshal : string -> option deliveries.KafkaTransactionMessage)
    (nowCreated nowUpdated : Time) (message : string) (s : St)
    (kafkaMsg : deliveries.KafkaTransactionMessage) (logs : list event)
    (t : Transaction) (cerr : option error) :
  unmarshal message = Some kafkaMsg ->
  deliveries.kafkaMessageToEntity nowCreated nowUpdated kafkaMsg
    = deliveries.Normal (logs, (t, cerr)) ->
  cerr = None
  /\ let '(s', tr, (_, perr)) := ProcessTransaction t s in
     deliveries.HandleMessage unmarshal nowCreated nowUpdated message s
     = deliveries.Normal (s', [EvLog LDebug "Received message"; EvLog LDebug "Unmarshalled message"]
                              ++ logs ++ tr,
                          match perr with Some e => Some (ErrProcess e) | None => None end).
Proof.
  intros Hu Hk. pose proof (translate_no_error _ _ _ _ _ _ Hk) as ->.
  split; [reflexivity|].
  unfold deliveries.HandleMessage. rewrite Hu, Hk. simpl.
  destruct (ProcessTransaction t s) as [[s' tr] [t' perr]]. reflexivity.
Qed.

Lemma handle_decoded_is_process_witness :
  match deliveries.kafkaMessageToEntity 0 0 (sample_message good_timestamp (f64_of_Z 15025) "" "") with
  | deliveries.Normal (logs, (t, cerr)) =>
      cerr = None
      /\ let '(s', tr, (_, perr)) := ProcessTransaction t empty_db in
         deliveries.HandleMessage sample_unmarshal 0 0 "trans-456 TOPUP" empty_db
         = deliveries.Normal (s', [EvLog LDebug "Received message"; EvLog LDebug "Unmarshalled message"]
                                  ++ logs ++ tr,
                              match perr with Some e => Some (ErrProcess e) | None => None end)
  | deliveries.Panic _ => False
  end.
Proof.
  destruct (deliveries.kafkaMessageToEntity 0 0 (sample_message good_timestamp (f64_of_Z 15025) "" ""))
    as [[logs [t cerr]]|r] eqn:E.
  - apply (handle_decoded_is_process sample_unmarshal 0 0 "trans-456 TOPUP" empty_db
             (sample_message good_timestamp (f64_of_Z 15025) "" "") logs t cerr);
      [reflexivity | exact E].
  - vm_compute in E. discriminate E.
Defined.

Lemma at_index_app (a extra : list deliveries.json) (i : nat) :
  (i < List.length a)%nat -> deliveries.at_index (a ++ extra) i = deliveries.at_index a i.
Proof. intro Hi. unfold deliveries.at_index. apply List.app_nth1. exact Hi. Qed.

(** X8: [parseTimestamp] reads at most seven elements: appending anything
    to an array of at least seven elements does not change the result
    (not even a panic). *)
Theorem parseTimestamp_ignores_after_seventh (a extra : list deliveries.json) :
  (7 <= List.length a)%nat ->
  deliveries.parseTimestamp (a ++ extra) = deliveries.parseTimestamp a.
Proof.
  intro Hlen. unfold deliveries.parseTimestamp.
  assert (H1 : (List.length (a ++ extra) <? 6)%nat = false)
    by (apply Nat.ltb_ge; rewrite List.length_app; lia).
  assert (H2 : (List.length a <? 6)%nat = false) by (apply Nat.ltb_ge; lia).
  assert (H3 : (6 <? List.length (a ++ extra))%nat = true)
    by (apply Nat.ltb_lt; rewrite List.length_app; lia).
  assert (H4 : (6 <? List.length a)%nat = true) by (apply Nat.ltb_lt; lia).
  rewrite H1, H2, H3, H4.
  rewrite !(at_index_app a extra) by lia. reflexivity.
Qed.

Lemma parseTimestamp_ignores_after_seventh_witness :
  deliveries.parseTimestamp
    (List.map (fun z => deliveries.JNumber (f64_of_Z z)) [2024; 1; 15; 10; 30; 45; 500000000]
     ++ [deliveries.JString "tz"])
  = deliveries.parseTimestamp
      (List.map (fun z => deliveries.JNumber (f64_of_Z z)) [2024; 1; 15; 10; 30; 45; 500000000]).
Proof. apply parseTimestamp_ignores_after_seventh. simpl. lia. Defined.

(** X9: [parseTimestamp] returns an error exactly for arrays of fewer
    than six elements, and then returns the zero time with the length error;
    an array of six or more elements either parses or panics. *)
Theorem parseTimestamp_error_iff_short (a : list deliveries.json) (ts : Time) (e : error) :
  deliveries.parseTimestamp a = deliveries.Normal (ts, Some e)
  <-> ((List.length a < 6)%nat /\ ts = deliveries.time_zero
       /\ e = ErrTimestampLength (List.length a)).
Proof.
  unfold deliveries.parseTimestamp.
  destruct (List.length a <? 6)%nat eqn:Hl.
  - apply Nat.ltb_lt in Hl. split.
    + intro H. injection H as <- <-. auto.
    + intros (_ & -> & ->). reflexivity.
  - apply Nat.ltb_ge in Hl. split; [|intros (H & _); lia].
    unfold deliveries.gbind.
    repeat match goal with
           | |- context [deliveries.assert_float64 ?x] => destruct (deliveries.assert_float64 x)
           end;
    try destruct (6 <? List.length a)%nat;
    intro H; inversion H.
Qed.

(** ** Further properties: the consumer loop *)

Section LoopProperties.
Context {HS : Type} (handler : string -> HS -> deliveries.go (HS * option error)).

(** The handler applied in order to the values of the given messages. *)
Fixpoint replay (ms : list consumer.Message) (hs : HS) : deliveries.go HS :=
  match ms with
  | [] => deliveries.Normal hs
  | m :: ms' =>
      match handler (consumer.Value m) hs with
      | deliveries.Normal (hs1, _) => replay ms' hs1
      | deliveries.Panic why => deliveries.Panic why
      end
  end.

End LoopProperties.

(** The messages handed to the handler, in the order of the trace. *)
Definition handled (tr : list consumer.cevent) : list consumer.Message :=
  List.flat_map (fun ev => match ev with consumer.CHandled m _ => [m] | _ => [] end) tr.

(** X12: the loop changes the handler's state only through the handler
    calls it records: unless a panic escaped, the final state is the
    handler applied, in order, to the values of the messages handed to it,
    starting from the initial state. *)
Theorem consume_state_is_replay {HS : Type}
    (handler : string -> HS -> deliveries.go (HS * option error))
    (rs : list consumer.round) (hs : HS) :
  let '(hs', tr, res) := consumer.Consume handler rs hs in
  (forall why, res <> consumer.Panicked why) ->
  replay handler (handled tr) hs = deliveries.Normal hs'.
Proof.
  unfold consumer.Consume.
  enough (Hl : forall hs0, let '(hs', tr, res) := consumer.loop handler rs hs0 in
                 (forall why, res <> consumer.Panicked why) ->
                 replay handler (handled tr) hs0 = deliveries.Normal hs').
  { specialize (Hl hs). destruct (consumer.loop handler rs hs) as [[hs' tr] res]. exact Hl. }
  induction rs as [|r rs IH]; intro hs0; simpl; [reflexivity|].
  destruct (consumer.ctx_at_select r); [|reflexivity|reflexivity].
  destruct (consumer.fetch r) as [m|fe].
  - destruct (handler (consumer.Value m) hs0) as [[hs1 herr]|why] eqn:Hh.
    + specialize (IH hs1).
      destruct (consumer.loop handler rs hs1) as [[hs' tr] res].
      intro Hnp.
      destruct herr, (consumer.commit_result r); simpl; rewrite Hh; apply IH; exact Hnp.
    + intro Hnp. exfalso. apply (Hnp why). reflexivity.
  - destruct (consumer.errors_Is fe ErrContextCanceled); [reflexivity|].
    specialize (IH hs0).
    destruct (consumer.loop handler rs hs0) as [[hs' tr] res]. exact IH.
Qed.

(** A handler that counts the messages it is given. *)
Definition count_messages (v : string) (n : nat) : deliveries.go (nat * option error) :=
  deliveries.Normal (S n, None).

Lemma consume_state_is_replay_witness :
  let '(hs', tr, res) :=
    consumer.Consume count_messages
      [consumer.mkRound consumer.CtxActive (consumer.Fetched topup_message) None;
       consumer.mkRound consumer.CtxActive (consumer.FetchFailed (ErrFetch "broker down")) None;
       consumer.mkRound consumer.CtxActive (consumer.Fetched topup_message) None] 0%nat in
  (forall why, res <> consumer.Panicked why) /\
  replay count_messages (handled tr) 0%nat = deliveries.Normal hs'.
Proof.
  pose proof (consume_state_is_replay count_messages
    [consumer.mkRound consumer.CtxActive (consumer.Fetched topup_message) None;
     consumer.mkRound consumer.CtxActive (consumer.FetchFailed (ErrFetch "broker down")) None;
     consumer.mkRound consumer.CtxActive (consumer.Fetched topup_message) None] 0%nat) as H.
  revert H. vm_compute. intro H.
  assert (Hnp : forall why, consumer.Running <> consumer.Panicked why)
    by (intros why Hw; discriminate Hw).
  split; [exact Hnp | exact (H Hnp)].
Defined.

(** X13: fetch failures other than cancellation never stop the consumer
    and never reach the handler: over turns that all fail to fetch with
    such an error (a deadline expiring inside [FetchMessage] among them),
    the loop keeps running with the handler's state unchanged, and each
    turn logs the failure and sleeps one second. *)
Theorem fetch_failures_back_off {HS : Type}
    (handler : string -> HS -> deliveries.go (HS * option error))
    (rs : list consumer.round) (hs : HS) :
  List.Forall (fun r => consumer.ctx_at_select r = consumer.CtxActive
                        /\ exists e, consumer.fetch r = consumer.FetchFailed e
                                     /\ consumer.errors_Is e ErrContextCanceled = false) rs ->
  consumer.loop handler rs hs
  = (hs, List.flat_map (fun _ => [consumer.CFetch; consumer.CLog LError "Failed to fetch message";
                                  consumer.CSleep 1]) rs,
     consumer.Running).
Proof.
  induction 1 as [|r rs [Hc [e [Hf He]]] _ IH]; simpl; [reflexivity|].
  rewrite Hc, Hf, He, IH. reflexivity.
Qed.

Lemma fetch_failures_back_off_witness :
  consumer.loop accept_all
    [consumer.mkRound consumer.CtxActive (consumer.FetchFailed (ErrFetch "broker down")) None;
     consumer.mkRound consumer.CtxActive (consumer.FetchFailed ErrDeadlineExceeded) None] tt
  = (tt, [consumer.CFetch; consumer.CLog LError "Failed to fetch message"; consumer.CSleep 1;
          consumer.CFetch; consumer.CLog LError "Failed to fetch message"; consumer.CSleep 1],
     consumer.Running).
Proof.
  apply (fetch_failures_back_off accept_all).
  repeat constructor; eexists; split; reflexivity.
Defined.

(** ** Further properties: the whole service *)

(** X14: end to end, PostgreSQL behind the use case behind the handler
    behind the consumer: over three turns that fetch a payload that does not
    decode, then a valid transaction, then the same transaction again, on an
    answering table without that transaction id, where the column types
    accept the transaction's values (after gorm's defaults) and keep its
    transaction id unchanged and no row holds the id the insert assigns, the
    consumer keeps running, the handler returns the unmarshal error, then
    nil, then nil (the duplicate is skipped), every message is committed
    whatever the commits return, and the table gains exactly one row, the
    one the server built from the transaction. *)
Theorem consume_malformed_valid_duplicate
    (unmarshal : string -> option deliveries.KafkaTransactionMessage)
    (nowCreated nowUpdated : Time) (m1 m2 m3 : consumer.Message)
    (c1 c2 c3 : option error) (kafkaMsg : deliveries.KafkaTransactionMessage)
    (logs : list event) (t : Transaction) (db : postgres.DB)
    (row : postgres.TransactionModel) :
  unmarshal (consumer.Value m1) = None ->
  unmarshal (consumer.Value m2) = Some kafkaMsg ->
  unmarshal (consumer.Value m3) = Some kafkaMsg ->
  deliveries.kafkaMessageToEntity nowCreated nowUpdated kafkaMsg
    = deliveries.Normal (logs, (t, None)) ->
  IsValid t = true ->
  postgres.available db = true ->
  postgres.count_transaction_id (TransactionID t) (postgres.rows db) = 0%nat ->
  postgres.stored_model (postgres.entityToModel t) db = Some row ->
  postgres.TransactionID row = TransactionID t ->
  List.existsb (fun x => String.eqb (postgres.ID x) (postgres.ID row)) (postgres.rows db) = false ->
  let '(db', tr, res) :=
    consumer.Consume
      (@deliveries.message_handler _ postgres.transactionRepository unmarshal nowCreated nowUpdated)
      [consumer.mkRound consumer.CtxActive (consumer.Fetched m1) c1;
       consumer.mkRound consumer.CtxActive (consumer.Fetched m2) c2;
       consumer.mkRound consumer.CtxActive (consumer.Fetched m3) c3] db in
  res = consumer.Running
  /\ postgres.rows db' = postgres.rows db ++ [row]
  /\ consumer.actions tr
     = [consumer.CFetch; consumer.CHandled m1 (Some ErrUnmarshal); consumer.CCommit m1;
        consumer.CFetch; consumer.CHandled m2 None; consumer.CCommit m2;
        consumer.CFetch; consumer.CHandled m3 None; consumer.CCommit m3].
Proof.
  intros Hu1 Hu2 Hu3 Hk Hv Ha Hcnt Hs Htx Hpk.
  set (db1 := {| postgres.rows := postgres.rows db ++ [row]; postgres.available := true;
                 postgres.uuid_seq := snd (postgres.assigned_id (postgres.entityToModel t) db);
                 postgres.clock := postgres.clock db;
                 postgres.columns := postgres.columns db |}).
  assert (H1 : @deliveries.message_handler _ postgres.transactionRepository unmarshal
                 nowCreated nowUpdated (consumer.Value m1) db
               = deliveries.Normal (db, Some ErrUnmarshal)).
  { unfold deliveries.message_handler, deliveries.HandleMessage. rewrite Hu1. reflexivity. }
  assert (He : @Exists _ postgres.transactionRepository (TransactionID t) db = (db, (false, None))).
  { simpl. unfold postgres.Exists. rewrite Ha, Hcnt. reflexivity. }
  assert (Hc : @Create _ postgres.transactionRepository t db
               = (db1, (set_ID (postgres.ID row) t, None))).
  { apply (pg_create_success t db row Ha Hs Hpk). rewrite Htx. exact Hcnt. }
  assert (H2 : @deliveries.message_handler _ postgres.transactionRepository unmarshal
                 nowCreated nowUpdated (consumer.Value m2) db
               = deliveries.Normal (db1, None)).
  { unfold deliveries.message_handler, deliveries.HandleMessage. rewrite Hu2, Hk. simpl.
    rewrite (@process_create _ postgres.transactionRepository t _ db db db1 None Hv He Hc).
    reflexivity. }
  assert (He1 : @Exists _ postgres.transactionRepository (TransactionID t) db1 = (db1, (true, None))).
  { simpl. unfold postgres.Exists. simpl.
    rewrite count_transaction_id_app, Hcnt. unfold postgres.count_transaction_id. simpl.
    rewrite Htx, String.eqb_refl. reflexivity. }
  assert (H3 : @deliveries.message_handler _ postgres.transactionRepository unmarshal
                 nowCreated nowUpdated (consumer.Value m3) db1
               = deliveries.Normal (db1, None)).
  { unfold deliveries.message_handler, deliveries.HandleMessage. rewrite Hu3, Hk. simpl.
    rewrite (@process_skip _ postgres.transactionRepository t db1 db1 Hv He1).
    reflexivity. }
  unfold consumer.Consume. cbn -[deliveries.message_handler].
  rewrite H1. cbn -[deliveries.message_handler].
  rewrite H2. cbn -[deliveries.message_handler].
  rewrite H3.
  destruct c1, c2, c3; simpl; repeat split; rewrite ?Message_eqb_refl; reflexivity.
Qed.

Lemma consume_malformed_valid_duplicate_witness :
  match deliveries.kafkaMessageToEntity 0 0 (sample_message good_timestamp (f64_of_Z 15025) "" "") with
  | deliveries.Normal (logs, (t, None)) =>
      let '(db', tr, res) :=
        consumer.Consume
          (@deliveries.message_handler _ postgres.transactionRepository sample_unmarshal 0 0)
          [consumer.mkRound consumer.CtxActive
             (consumer.Fetched {| consumer.Offset := 0; consumer.Value := "{not json" |}) None;
           consumer.mkRound consumer.CtxActive
             (consumer.Fetched {| consumer.Offset := 1; consumer.Value := "trans-456 TOPUP" |}) None;
           consumer.mkRound consumer.CtxActive
             (consumer.Fetched {| consumer.Offset := 2; consumer.Value := "trans-456 TOPUP" |})
             (Some (ErrFetch "commit"))] empty_db in
      res = consumer.Running
      /\ postgres.rows db' = postgres.rows empty_db ++ [postgres.entityToModel t]
      /\ consumer.actions tr
         = [consumer.CFetch;
            consumer.CHandled {| consumer.Offset := 0; consumer.Value := "{not json" |} (Some ErrUnmarshal);
            consumer.CCommit {| consumer.Offset := 0; consumer.Value := "{not json" |};
            consumer.CFetch;
            consumer.CHandled {| consumer.Offset := 1; consumer.Value := "trans-456 TOPUP" |} None;
            consumer.CCommit {| consumer.Offset := 1; consumer.Value := "trans-456 TOPUP" |};
            consumer.CFetch;
            consumer.CHandled {| consumer.Offset := 2; consumer.Value := "trans-456 TOPUP" |} None;
            consumer.CCommit {| consumer.Offset := 2; consumer.Value := "trans-456 TOPUP" |}]
  | _ => False
  end.
Proof.
  destruct (deliveries.kafkaMessageToEntity 0 0 (sample_message good_timestamp (f64_of_Z 15025) "" ""))
    as [[logs [t [e|]]]|r] eqn:E;
    [vm_compute in E; discriminate E| |vm_compute in E; discriminate E].
  pose proof E as E'. vm_compute in E'. injection E' as _ Et.
  apply (consume_malformed_valid_duplicate sample_unmarshal 0 0
           {| consumer.Offset := 0; consumer.Value := "{not json" |}
           {| consumer.Offset := 1; consumer.Value := "trans-456 TOPUP" |}
           {| consumer.Offset := 2; consumer.Value := "trans-456 TOPUP" |}
           None None (Some (ErrFetch "commit"))
           (sample_message good_timestamp (f64_of_Z 15025) "" "") logs t empty_db
           (postgres.entityToModel t));
    first [exact E | subst t; vm_compute; reflexivity].
Defined.

(** ** Further properties: the repository's mappings and the configuration *)

(** X15: [entityToModel] and [modelToEntity] are inverse to each other:
    storing a record and reading it back loses no field, and reading a row
    and storing it back gives the same row. *)
Theorem entity_model_mappings_inverse (t : Transaction) (m : postgres.TransactionModel) :
  postgres.modelToEntity (postgres.entityToModel t) = t
  /\ postgres.entityToModel (postgres.modelToEntity m) = m.
Proof.
  split.
  - destruct t as [? ? ? ? ? ? ? ? ? ? ? ? pm ? ? ? ?]; destruct pm; reflexivity.
  - destruct m as [? ? ? ? ? ? ? ? ? ? ? ? pm ? ? ? ?]; destruct pm; reflexivity.
Qed.

(** String functions for the examples; on ASCII strings they agree with
    [strings.TrimSpace], [strings.ToLower] and [strings.EqualFold]. *)
Definition is_ascii_space (a : ascii) : bool :=
  List.existsb (Ascii.eqb a) [" "%char; "009"%char; "010"%char; "011"%char; "012"%char; "013"%char].

Fixpoint drop_spaces (l : list ascii) : list ascii :=
  match l with
  | [] => []
  | a :: l' => if is_ascii_space a then drop_spaces l' else l
  end.

Definition trim_ascii_space (s : string) : string :=
  string_of_list_ascii (List.rev (drop_spaces (List.rev (drop_spaces (list_ascii_of_string s))))).

Definition lower_ascii (a : ascii) : ascii :=
  if (Nat.leb 65 (nat_of_ascii a) && Nat.leb (nat_of_ascii a) 90)%bool
  then ascii_of_nat (nat_of_ascii a + 32) else a.

Definition to_lower_ascii (s : string) : string :=
  string_of_list_ascii (List.map lower_ascii (list_ascii_of_string s)).

Definition equal_fold_ascii (s t : string) : bool := String.eqb (to_lower_ascii s) (to_lower_ascii t).

Definition sample_config (brokers : list string) (port : Z) (sslmode loglevel : string)
  : config.Config :=
  {| config.Brokers := brokers; config.Topic := "transactions"; config.GroupID := "consumer";
     config.Host := "localhost"; config.Port := port; config.User := "postgres";
     config.Password := "secret"; config.Name := "transactions"; config.SSLMode := sslmode;
     config.LogLevel := loglevel; config.Environment := "production"; config.AppPort := 8080;
     config.Debug := false |}.

Section ConfigProperties.
Context (TrimSpace : string -> string) (EqualFold : string -> string -> bool)
        (ToLower : string -> string).

Lemma trim_brokers_ok (i : nat) (bs bs' : list string) :
  config.trim_brokers TrimSpace i bs = (bs', None) ->
  bs' = List.map TrimSpace bs /\ List.Forall (fun b => b <> ""%string) bs'.
Proof.
  revert i bs'. induction bs as [|b bs IH]; intros i bs' H; simpl in H.
  - injection H as <-. split; [reflexivity|constructor].
  - destruct (String.eqb (TrimSpace b) "") eqn:E; [discriminate H|].
    destruct (config.trim_brokers TrimSpace (S i) bs) as [rest e] eqn:Hr.
    injection H as <- ->. destruct (IH (S i) rest Hr) as [-> Hf].
    split; [reflexivity|]. constructor; [apply String.eqb_neq; exact E|exact Hf].
Qed.

Lemma trim_brokers_stop (i : nat) (j : nat) (bs : list string) :
  (i < List.length bs)%nat ->
  List.Forall (fun b => TrimSpace b <> ""%string) (List.firstn i bs) ->
  TrimSpace (List.nth i bs ""%string) = ""%string ->
  config.trim_brokers TrimSpace j bs
  = (List.map TrimSpace (List.firstn (S i) bs) ++ List.skipn (S i) bs,
     Some (config.EmptyBroker (j + i))).
Proof.
  revert i j. induction bs as [|b bs IH]; intros i j Hi Hf He; simpl in Hi; [lia|].
  destruct i as [|i].
  - simpl in He |- *. rewrite He. simpl. rewrite Nat.add_0_r. reflexivity.
  - simpl in Hf. inversion Hf as [|? ? Hb Hrest]; subst.
    simpl. apply String.eqb_neq in Hb. rewrite Hb.
    rewrite (IH i (S j)); [|lia|exact Hrest|exact He].
    rewrite Nat.add_succ_r. reflexivity.
Qed.

End ConfigProperties.

(** X16: every configuration [Load] returns passes validation: it came
    from the parsed environment with each broker address trimmed and all
    other settings unchanged, the broker list is not empty and holds no
    empty address, the database port is between 1 and 65535, the SSL mode is
    one of the six accepted modes (ignoring case) and the lower-cased log
    level is one of the five accepted levels (ignoring case). *)
Theorem load_result_is_valid (TrimSpace : string -> string)
    (EqualFold : string -> string -> bool) (ToLower : string -> string)
    (parsed : option config.Config) (c : config.Config) :
  config.Load TrimSpace EqualFold ToLower parsed = inl c ->
  exists c0, parsed = Some c0
  /\ c = config.set_Brokers (List.map TrimSpace (config.Brokers c0)) c0
  /\ config.Brokers c <> []
  /\ List.Forall (fun b => b <> ""%string) (config.Brokers c)
  /\ 0 < config.Port c <= 65535
  /\ config.contains EqualFold config.validSSLModes (config.SSLMode c) = true
  /\ config.contains EqualFold config.validLogLevels (ToLower (config.LogLevel c)) = true.
Proof.
  unfold config.Load. destruct parsed as [c0|]; [|discriminate].
  unfold config.Validate.
  destruct (Nat.eqb (List.length (config.Brokers c0)) 0) eqn:Hl; [discriminate|].
  destruct (config.trim_brokers TrimSpace 0 (config.Brokers c0)) as [bs [e|]] eqn:Ht;
    [discriminate|].
  apply trim_brokers_ok in Ht as [-> Hf].
  cbn [config.set_Brokers config.SSLMode config.LogLevel config.Port].
  destruct (Z.leb _ 0 || Z.ltb 65535 _) eqn:Hp; [discriminate|].
  destruct (config.contains EqualFold config.validSSLModes (config.SSLMode c0)) eqn:Hs;
    cbn [negb]; [|discriminate].
  destruct (config.contains EqualFold config.validLogLevels (ToLower (config.LogLevel c0))) eqn:Hg;
    cbn [negb]; [|discriminate].
  intro H. injection H as <-.
  cbn [config.set_Brokers config.SSLMode config.LogLevel config.Port config.Brokers] in *.
  apply Bool.orb_false_iff in Hp as [Hp1 Hp2].
  apply Z.leb_gt in Hp1. apply Z.ltb_ge in Hp2.
  exists c0. repeat split; auto; try lia.
  destruct (config.Brokers c0); [discriminate Hl|discriminate].
Qed.

Lemma load_result_is_valid_witness :
  exists c0,
    Some (sample_config [" kafka-1:9092 "; "kafka-2:9092"]%string 5432 "Require"%string "INFO"%string) = Some c0
    /\ sample_config ["kafka-1:9092"; "kafka-2:9092"]%string 5432 "Require"%string "INFO"%string
       = config.set_Brokers (List.map trim_ascii_space (config.Brokers c0)) c0
    /\ ["kafka-1:9092"; "kafka-2:9092"]%string <> []
    /\ List.Forall (fun b => b <> ""%string) ["kafka-1:9092"; "kafka-2:9092"]%string
    /\ 0 < 5432 <= 65535
    /\ config.contains equal_fold_ascii config.validSSLModes "Require"%string = true
    /\ config.contains equal_fold_ascii config.validLogLevels (to_lower_ascii "INFO"%string) = true.
Proof.
  apply (load_result_is_valid trim_ascii_space equal_fold_ascii to_lower_ascii
           (Some (sample_config [" kafka-1:9092 "; "kafka-2:9092"]%string 5432 "Require"%string "INFO"%string))
           (sample_config ["kafka-1:9092"; "kafka-2:9092"]%string 5432 "Require"%string "INFO"%string)).
  vm_compute. reflexivity.
Defined.

(** X17: [Validate] trims the broker addresses in place and stops at the
    first one that is empty after trimming: it returns the error for that
    index, and the configuration it leaves behind has the addresses up to
    and including that one trimmed and the later ones untouched. *)
Theorem validate_stops_at_empty_broker (TrimSpace : string -> string)
    (EqualFold : string -> string -> bool) (ToLower : string -> string)
    (c : config.Config) (i : nat) :
  (i < List.length (config.Brokers c))%nat ->
  List.Forall (fun b => TrimSpace b <> ""%string) (List.firstn i (config.Brokers c)) ->
  TrimSpace (List.nth i (config.Brokers c) ""%string) = ""%string ->
  config.Validate TrimSpace EqualFold ToLower c
  = (config.set_Brokers (List.map TrimSpace (List.firstn (S i) (config.Brokers c))
                         ++ List.skipn (S i) (config.Brokers c)) c,
     Some (config.EmptyBroker i)).
Proof.
  intros Hi Hf He. unfold config.Validate.
  destruct (Nat.eqb (List.length (config.Brokers c)) 0) eqn:Hl;
    [apply Nat.eqb_eq in Hl; lia|].
  rewrite (trim_brokers_stop TrimSpace i 0 (config.Brokers c) Hi Hf He). reflexivity.
Qed.

Lemma validate_stops_at_empty_broker_witness :
  config.Validate trim_ascii_space equal_fold_ascii to_lower_ascii
    (sample_config [" kafka-1:9092"; "  "; " kafka-3:9092 "]%string 5432 "require"%string "info"%string)
  = (sample_config ["kafka-1:9092"; ""; " kafka-3:9092 "]%string 5432 "require"%string "info"%string,
     Some (config.EmptyBroker 1)).
Proof.
  apply (validate_stops_at_empty_broker trim_ascii_space equal_fold_ascii to_lower_ascii
           (sample_config [" kafka-1:9092"; "  "; " kafka-3:9092 "]%string 5432 "require"%string "info"%string) 1);
    [simpl; lia | repeat constructor; vm_compute; discriminate | vm_compute; reflexivity].
Defined.
